(** * vulkan-hello: the diagnostic runner of quickvulkan1.1

    A shallow embedding of [examples/vulkan-hello/src/main.cc] and the
    properties its specification states about it.

    The program talks to a Vulkan loader and driver.  Their answers are the
    program's only input, so they are gathered in a record [Driver]; the
    program itself is a computation in a state monad whose state holds the
    function-local static buffer of [ApiVersionToStr], the two output streams
    and the log of the calls made.  The two places of [main] that can end a
    run before [main] returns, the constructor of the device vector, which
    may throw, and the unchecked subscript, are computations in that monad
    extended with a way to stop; what the host does then is in a record
    [Host]. *)

From Stdlib Require Import ZArith String Ascii List Bool Lia Permutation.
From Stdlib Require DecimalString HexadecimalString DecimalN HexadecimalN.
From ExtLib Require Import Structures.Monad Data.Monads.StateMonad.
From ExtLib Require Import Structures.MonadTrans Structures.MonadExc.
From ExtLib Require Import Data.Monads.EitherMonad.
Import ListNotations.
Import MonadNotation.

Local Open Scope string_scope.
Local Open Scope monad_scope.
Local Open Scope Z_scope.

(** ** Fixed-width integers of the C++ source *)

Module CInt.

(** [uint32_t]: a value is kept reduced modulo 2^32. *)
Definition u32 (z : Z) : Z := z mod 2 ^ 32.

(** [int32_t] (the representation of the enumeration [VkResult]):
    two's-complement wrap-around into [-2^31, 2^31). *)
Definition i32 (z : Z) : Z := (z + 2 ^ 31) mod 2 ^ 32 - 2 ^ 31.

End CInt.
Import CInt.

(** ** Text of numbers, as [printf] writes them *)

Module Digits.

(** Decimal digits of a natural number, most significant first. *)
Definition dec (z : Z) : string :=
  DecimalString.NilZero.string_of_uint (N.to_uint (Z.to_N z)).

(** Lower-case hexadecimal digits, without prefix. *)
Definition hex (z : Z) : string :=
  HexadecimalString.NilZero.string_of_uint (N.to_hex_uint (Z.to_N z)).

(** Signed decimal: a minus sign for negative numbers. *)
Definition sdec (z : Z) : string :=
  if z <? 0 then "-" ++ dec (- z) else dec z.

(** Inverse readers, used to state that the digits denote the number. *)
Definition read_dec (s : string) : option Z :=
  option_map (fun d => Z.of_N (N.of_uint d))
             (DecimalString.NilZero.uint_of_string s).

Definition read_hex (s : string) : option Z :=
  option_map (fun d => Z.of_N (N.of_hex_uint d))
             (HexadecimalString.NilZero.uint_of_string s).

Definition is_hex_digit (c : ascii) : bool :=
  let n := nat_of_ascii c in
  ((48 <=? n) && (n <=? 57) || (97 <=? n) && (n <=? 102))%nat.

Fixpoint all_chars (p : ascii -> bool) (s : string) : bool :=
  match s with
  | EmptyString => true
  | String c s' => p c && all_chars p s'
  end.

End Digits.
Import Digits.

(** ** The part of <vulkan/vulkan.h> the program uses *)

Module Vk.

Definition VkResult := Z.
Definition VkInstance := Z.
Definition VkPhysicalDevice := Z.

(** Modelled from the spec: the enumerators [VK_SUCCESS],
    [VK_STRUCTURE_TYPE_APPLICATION_INFO] and
    [VK_STRUCTURE_TYPE_INSTANCE_CREATE_INFO] and the null handle come from
    <vulkan/vulkan.h>, which is not among the sources; they have the values
    of the Vulkan headers. *)
Definition VK_SUCCESS : VkResult := 0.
Definition VK_NULL_HANDLE : Z := 0.

Definition VK_STRUCTURE_TYPE_APPLICATION_INFO : Z := 0.
Definition VK_STRUCTURE_TYPE_INSTANCE_CREATE_INFO : Z := 1.

(** Modelled from the spec: the header macros [VK_MAKE_VERSION],
    [VK_VERSION_MAJOR], [VK_VERSION_MINOR] and [VK_VERSION_PATCH] come from
    <vulkan/vulkan.h>, which is not among the sources.  They are given the
    packed layout of Vulkan version numbers: major in the bits from 22 up,
    minor in the ten bits from 12, patch in the low twelve bits. *)
Definition VK_MAKE_VERSION (major minor patch : Z) : Z :=
  u32 (Z.lor (Z.lor (Z.shiftl (u32 major) 22) (Z.shiftl (u32 minor) 12))
             (u32 patch)).

Definition VK_VERSION_MAJOR (v : Z) : Z := Z.shiftr (u32 v) 22.
Definition VK_VERSION_MINOR (v : Z) : Z := Z.land (Z.shiftr (u32 v) 12) 1023.
Definition VK_VERSION_PATCH (v : Z) : Z := Z.land (u32 v) 4095.

Definition VK_API_VERSION_1_0 : Z := VK_MAKE_VERSION 1 0 0.
Definition VK_API_VERSION_1_1 : Z := VK_MAKE_VERSION 1 1 0.

Record VkApplicationInfo := {
  app_sType : Z;
  pApplicationName : string;
  applicationVersion : Z;
  pEngineName : string;
  engineVersion : Z;
  apiVersion_requested : Z
}.

Record VkInstanceCreateInfo := {
  ci_sType : Z;
  pApplicationInfo : VkApplicationInfo
}.

(** The fields of [VkPhysicalDeviceProperties] that the program reads. *)
Record VkPhysicalDeviceProperties := {
  deviceName : string;
  apiVersion : Z;
  driverVersion : Z;
  deviceID : Z
}.

(** [PFN_vkEnumerateInstanceVersion]: called with the address of a
    [uint32_t]; given the value stored there it returns a status and the
    value it leaves there. *)
Definition PFN_vkEnumerateInstanceVersion := Z -> VkResult * Z.

End Vk.
Import Vk.

(** ** Program state *)

(** A [const char*] of the program: it points either into the static buffer
    of [ApiVersionToStr] or to a character array with known contents. *)
Inductive cstr_ptr :=
| PtrStaticBuf
| PtrArray (contents : string).

Inductive printf_arg :=
| ArgInt (z : Z)
| ArgUInt (z : Z)
| ArgStr (p : cstr_ptr).

(** Calls that leave the program, and the accesses to the device vector:
    [EvVectorAlloc n] is the attempt to construct a vector of [n] handles. *)
Inductive Event :=
| EvGetInstanceProcAddr (instance : VkInstance) (name : string)
| EvEnumerateInstanceVersion
| EvCreateInstance (ci : VkInstanceCreateInfo) (res : VkResult)
| EvEnumeratePhysicalDevices (instance : VkInstance) (with_buffer : bool)
                             (res : VkResult)
| EvGetPhysicalDeviceProperties (device : VkPhysicalDevice)
| EvDestroyInstance (instance : VkInstance)
| EvVectorAlloc (n : Z)
| EvVectorRead (i : Z) (in_range : bool).

Record World := {
  static_buf : string;      (* static char buf[64], up to its terminator *)
  stdout : list string;     (* one entry per printf/puts call, in order *)
  stderr : list string;     (* one entry per fprintf(stderr, ...) call *)
  calls : list Event        (* in the order they were made *)
}.

Definition initial_world : World :=
  {| static_buf := ""; stdout := []; stderr := []; calls := [] |}.

Definition set_static_buf (s : string) (w : World) : World :=
  {| static_buf := s; stdout := stdout w; stderr := stderr w; calls := calls w |}.

Definition add_stdout (s : string) (w : World) : World :=
  {| static_buf := static_buf w; stdout := (stdout w ++ [s])%list;
     stderr := stderr w; calls := calls w |}.

Definition add_stderr (s : string) (w : World) : World :=
  {| static_buf := static_buf w; stdout := stdout w;
     stderr := (stderr w ++ [s])%list; calls := calls w |}.

Definition add_call (e : Event) (w : World) : World :=
  {| static_buf := static_buf w; stdout := stdout w;
     stderr := stderr w; calls := (calls w ++ [e])%list |}.

Definition M := state World.

Definition update (f : World -> World) : M unit :=
  mkState (fun w => (tt, f w)).

Definition emit (e : Event) : M unit := update (add_call e).

(** ** Ways a run ends before [main] returns *)

(** The exceptions the constructor of [std::vector] may throw. *)
Inductive Exception :=
| BadAlloc       (* std::bad_alloc *)
| LengthError.   (* std::length_error *)

(** [main] has no handler, so a thrown exception leaves [main]; a subscript
    past the end of a vector has no defined behaviour. *)
Inductive Stop :=
| Thrown (e : Exception)
| UndefinedBehaviour.

(** What the host decides: whether a vector of [n] handles can be
    constructed, and what its runtime writes to standard error before it
    aborts the process for an exception nobody caught. *)
Record Host := {
  vector_alloc : Z -> option Exception;
  terminate_output : Exception -> list string
}.

(** Computations that may stop; the state reached so far is kept. *)
Definition ME := eitherT Stop M.

Definition exec {A : Type} (c : ME A) (w : World) : (Stop + A) * World :=
  runState (unEitherT c) w.

(** ** <cstdio> *)

Module Stdio.

Definition deref (w : World) (p : cstr_ptr) : string :=
  match p with
  | PtrStaticBuf => static_buf w
  | PtrArray s => s
  end.

Fixpoint zeros (n : nat) : string :=
  match n with
  | O => ""
  | S n' => String "0" (zeros n')
  end.

(** Minimum field width with the [0] flag: zeros on the left. *)
Definition pad0 (width : nat) (s : string) : string :=
  zeros (width - String.length s) ++ s.

Fixpoint spaces (n : nat) : string :=
  match n with
  | O => ""
  | S n' => String " " (spaces n')
  end.

Definition pad (zero : bool) (width : nat) (s : string) : string :=
  if zero then pad0 width s
  else spaces (width - String.length s) ++ s.

(** A signed number in a field: with the [0] flag the zeros go between the
    sign and the digits. *)
Definition pad_int (zero : bool) (width : nat) (z : Z) : string :=
  if zero && (z <? 0) then "-" ++ pad0 (width - 1) (dec (- z))
  else pad zero width (sdec z).

Inductive fmt_state :=
| Literal
| Directive (zero : bool) (width : nat).

Definition digit_of (c : ascii) : option nat :=
  let n := nat_of_ascii c in
  if ((48 <=? n) && (n <=? 57))%nat then Some (n - 48)%nat else None.

(** The conversions the program uses: [%d], [%u], [%x], [%s] and [%%], with
    an optional [0] flag and minimum width.  The arguments are read at the
    time of the call, a string through its pointer. *)
Fixpoint format (w : World) (st : fmt_state) (fmt : string)
         (args : list printf_arg) : string :=
  match fmt with
  | EmptyString => EmptyString
  | String c rest =>
      match st with
      | Literal =>
          if Ascii.eqb c "%" then format w (Directive false 0) rest args
          else String c (format w Literal rest args)
      | Directive zero width =>
          match digit_of c with
          | Some O =>
              if (width =? 0)%nat
              then format w (Directive true 0) rest args
              else format w (Directive zero (10 * width)) rest args
          | Some d => format w (Directive zero (10 * width + d)) rest args
          | None =>
              if Ascii.eqb c "%" then String "%" (format w Literal rest args)
              else
                match args with
                | [] => format w Literal rest []
                | a :: args' =>
                    let field :=
                      match a with
                      | ArgInt z =>
                          if Ascii.eqb c "d" then pad_int zero width (i32 z)
                          else pad zero width ""
                      | ArgUInt z =>
                          pad zero width
                              (if Ascii.eqb c "u" then dec (u32 z)
                               else if Ascii.eqb c "x" then hex (u32 z)
                               else "")
                      | ArgStr p =>
                          pad zero width
                              (if Ascii.eqb c "s" then deref w p else "")
                      end in
                    field ++ format w Literal rest args'
                end
          end
      end
  end.

Definition newline : string := String (ascii_of_nat 10) "".

(** [std::printf(fmt, args...)] *)
Definition printf (fmt : string) (args : list printf_arg) : M unit :=
  mkState (fun w => (tt, add_stdout (format w Literal fmt args) w)).

(** [std::fprintf(stderr, fmt, args...)] *)
Definition fprintf_stderr (fmt : string) (args : list printf_arg) : M unit :=
  mkState (fun w => (tt, add_stderr (format w Literal fmt args) w)).

(** [std::puts(s)]: the string and a newline. *)
Definition puts (s : string) : M unit :=
  update (add_stdout (s ++ newline)).

(** [std::snprintf(buf, size, fmt, args...)] into the static buffer: at
    most [size - 1] characters are kept, then the terminator. *)
Definition snprintf_static_buf (size : nat) (fmt : string)
           (args : list printf_arg) : M unit :=
  mkState (fun w =>
    (tt, set_static_buf
           (String.substring 0 (size - 1) (format w Literal fmt args)) w)).

End Stdio.
Import Stdio.

(** ** The loader and driver

    Everything the program learns from outside comes through these entry
    points.  [main] has no loop around the first four, so one answer for
    each describes a whole run: [on_vkEnumeratePhysicalDevices_count] answers
    the call with a null buffer, [on_vkEnumeratePhysicalDevices_fill] the
    later call with a buffer of the given capacity: its status, the count it
    stores and the handles it writes from the start of the buffer on.  The
    properties of a device are static data of the hardware and depend on its
    handle only. *)
Record Driver := {
  on_vkGetInstanceProcAddr :
    VkInstance -> string -> option PFN_vkEnumerateInstanceVersion;
  on_vkCreateInstance : VkInstanceCreateInfo -> VkResult * VkInstance;
  on_vkEnumeratePhysicalDevices_count : VkInstance -> VkResult * Z;
  on_vkEnumeratePhysicalDevices_fill :
    VkInstance -> Z -> VkResult * Z * list VkPhysicalDevice;
  on_vkGetPhysicalDeviceProperties :
    VkPhysicalDevice -> VkPhysicalDeviceProperties
}.

(** The elements of [buffer] after [written] was stored from its start on:
    an element keeps its value where nothing was written.  The buffer does
    not grow: an entry point is taken to write only into the object whose
    address it is given, here as for [*pInstance] and [*pApiVersion], and
    what a driver does to memory behind the buffer is not described.  The
    values it hands back, the stored count among them, are not
    constrained. *)
Fixpoint overwrite {A : Type} (buffer written : list A) : list A :=
  match buffer, written with
  | _ :: buffer', h :: written' => h :: overwrite buffer' written'
  | _, _ => buffer
  end.

Section Calls.

Variable d : Driver.

Definition vkGetInstanceProcAddr (instance : VkInstance) (name : string)
  : M (option PFN_vkEnumerateInstanceVersion) :=
  emit (EvGetInstanceProcAddr instance name) ;;
  ret (on_vkGetInstanceProcAddr d instance name).

(** Calling through the resolved pointer: the status and the new contents
    of the [uint32_t] whose address was passed. *)
Definition call_enumerate_instance_version
           (fn : PFN_vkEnumerateInstanceVersion) (pApiVersion : Z)
  : M (VkResult * Z) :=
  emit EvEnumerateInstanceVersion ;;
  let '(res, v) := fn pApiVersion in
  ret (i32 res, u32 v).

(** The status and the handle found in [*pInstance] afterwards. *)
Definition vkCreateInstance (ci : VkInstanceCreateInfo)
  : M (VkResult * VkInstance) :=
  let '(res, instance) := on_vkCreateInstance d ci in
  emit (EvCreateInstance ci (i32 res)) ;;
  ret (i32 res, instance).

(** [vkEnumeratePhysicalDevices(instance, &count, buffer)].  The result is
    the status, the new value of [count] and the new contents of the
    buffer.  With a null buffer the driver stores the number of devices.
    With a buffer, [count] is passed as its capacity, and the driver stores
    whatever count it likes: nothing here relates it to the capacity or to
    the handles written. *)
Definition vkEnumeratePhysicalDevices (instance : VkInstance) (count : Z)
           (buffer : option (list VkPhysicalDevice))
  : M (VkResult * Z * list VkPhysicalDevice) :=
  match buffer with
  | None =>
      let '(res, n) := on_vkEnumeratePhysicalDevices_count d instance in
      emit (EvEnumeratePhysicalDevices instance false (i32 res)) ;;
      ret (i32 res, u32 n, [])
  | Some buf =>
      let '(res, n, handles) :=
        on_vkEnumeratePhysicalDevices_fill d instance count in
      emit (EvEnumeratePhysicalDevices instance true (i32 res)) ;;
      ret (i32 res, u32 n, overwrite buf handles)
  end.

Definition vkGetPhysicalDeviceProperties (device : VkPhysicalDevice)
  : M VkPhysicalDeviceProperties :=
  emit (EvGetPhysicalDeviceProperties device) ;;
  ret (on_vkGetPhysicalDeviceProperties d device).

Definition vkDestroyInstance (instance : VkInstance) : M unit :=
  emit (EvDestroyInstance instance).

End Calls.

(** ** <vector> *)

(** [std::vector<VkPhysicalDevice> v(n)]: [n] value-initialised handles, or
    the exception the host's allocator answers with. *)
Definition vector_new (h : Host) (n : Z) : ME (list VkPhysicalDevice) :=
  lift (emit (EvVectorAlloc n)) ;;
  match vector_alloc h n with
  | Some e => raise (Thrown e)
  | None => ret (repeat VK_NULL_HANDLE (Z.to_nat n))
  end.

(** [v[i]], which checks nothing: past the end of the vector the behaviour
    is undefined, and the run stops there as far as this description
    goes.  The log records whether the index was in range. *)
Definition vector_at (v : list VkPhysicalDevice) (i : Z) : ME VkPhysicalDevice :=
  match nth_error v (Z.to_nat i) with
  | Some x => lift (emit (EvVectorRead i true)) ;; ret x
  | None => lift (emit (EvVectorRead i false)) ;; raise UndefinedBehaviour
  end.

(** [for (uint32_t i = first; ...; ++i) body], for the [n] iterations left.
    The bound of the loop in [main] is not assigned inside the loop, so the
    number of iterations is known on entry, and [i] stays below 2^32. *)
Fixpoint for_range (i : Z) (n : nat) (body : Z -> ME unit) : ME unit :=
  match n with
  | O => ret tt
  | S n' => body i ;; for_range (i + 1) n' body
  end.

(** ** main.cc *)

(** [static const char* ApiVersionToStr(uint32_t v)] *)
Definition ApiVersionToStr (v : Z) : M cstr_ptr :=
  let v := u32 v in
  snprintf_static_buf 64 "%u.%u.%u"
    [ArgUInt (VK_VERSION_MAJOR v); ArgUInt (VK_VERSION_MINOR v);
     ArgUInt (VK_VERSION_PATCH v)] ;;
  ret PtrStaticBuf.

Definition app_info : VkApplicationInfo :=
  {| app_sType := VK_STRUCTURE_TYPE_APPLICATION_INFO;
     pApplicationName := "vk_sanity";
     applicationVersion := VK_MAKE_VERSION 0 1 0;
     pEngineName := "quickvulkanv1";
     engineVersion := VK_MAKE_VERSION 0 1 0;
     apiVersion_requested := VK_API_VERSION_1_1 |}.

Definition instance_ci : VkInstanceCreateInfo :=
  {| ci_sType := VK_STRUCTURE_TYPE_INSTANCE_CREATE_INFO;
     pApplicationInfo := app_info |}.

(** How a process ends: [main] returns its exit code; or the runtime aborts
    it for an exception that left [main] (a shell then reports the signal,
    134 on Linux, not an exit code); or its behaviour was undefined. *)
Inductive Outcome :=
| Returned (code : Z)
| Aborted (e : Exception)
| Undefined.

Section Main.

Variable h : Host.
Variable d : Driver.

(** Lines 15 to 22 of [main]: the loader version, 1.0 unless the loader
    has [vkEnumerateInstanceVersion]. *)
Definition queryLoaderVersion : M Z :=
  let loader_version := VK_API_VERSION_1_0 in
  enumerate_instance_version_fn <-
    vkGetInstanceProcAddr d VK_NULL_HANDLE "vkEnumerateInstanceVersion" ;;
  match enumerate_instance_version_fn with
  | Some fn =>
      r <- call_enumerate_instance_version fn loader_version ;;
      ret (snd r)
  | None => ret loader_version
  end.

(** The body of the loop over the devices. *)
Definition print_device (physical_devices : list VkPhysicalDevice) (i : Z)
  : ME unit :=
  device <- vector_at physical_devices i ;;
  device_props <- lift (vkGetPhysicalDeviceProperties d device) ;;
  api <- lift (ApiVersionToStr (apiVersion device_props)) ;;
  lift (printf ("  - %s | api %s | driver 0x%x | deviceID 0x%04x" ++ newline)
               [ArgStr (PtrArray (deviceName device_props)); ArgStr api;
                ArgUInt (driverVersion device_props);
                ArgUInt (deviceID device_props)]).

(** [int main()]: the value returned is the exit code of the process. *)
Definition main : ME Z :=
  loader_version <- lift queryLoaderVersion ;;
  banner <- lift (ApiVersionToStr loader_version) ;;
  lift (printf ("[vk] Loader supports: Vulkan %s" ++ newline)
               [ArgStr banner]) ;;
  created <- lift (vkCreateInstance d instance_ci) ;;
  let '(vk_result, instance) := created in
  if negb (vk_result =? VK_SUCCESS) then
    lift (fprintf_stderr ("[vk] vkCreateInstance failed: %d" ++ newline)
                         [ArgInt vk_result]) ;;
    ret 1
  else
    let physical_device_count := 0 in
    counted <- lift (vkEnumeratePhysicalDevices d instance
                                                physical_device_count None) ;;
    let '(vk_result, physical_device_count, _) := counted in
    if negb (vk_result =? VK_SUCCESS) || (physical_device_count =? 0) then
      lift (fprintf_stderr
              ("[vk] No physical devices found (res=%d, count=%u)" ++ newline)
              [ArgInt vk_result; ArgUInt physical_device_count]) ;;
      lift (vkDestroyInstance instance) ;;
      ret 1
    else
      physical_devices <- vector_new h physical_device_count ;;
      filled <- lift (vkEnumeratePhysicalDevices d instance
                        physical_device_count (Some physical_devices)) ;;
      let '(_, physical_device_count, physical_devices) := filled in
      lift (printf ("[vk] Found %u physical device(s)" ++ newline)
                   [ArgUInt physical_device_count]) ;;
      for_range 0 (Z.to_nat physical_device_count)
                (print_device physical_devices) ;;
      lift (vkDestroyInstance instance) ;;
      lift (puts "[vk] Sanity OK.") ;;
      ret 0.

(** A run of the process: how it ends and the final state.  An exception
    that leaves [main] reaches [std::terminate]: the runtime writes its
    message and aborts. *)
Definition run : Outcome * World :=
  match exec main initial_world with
  | (inr code, w) => (Returned code, w)
  | (inl (Thrown e), w) =>
      (Aborted e, fold_left (fun w s => add_stderr s w) (terminate_output h e) w)
  | (inl UndefinedBehaviour, w) => (Undefined, w)
  end.

Definition outcome : Outcome := fst run.

(** The exit code, for a process that has one. *)
Definition exit_code : option Z :=
  match outcome with
  | Returned code => Some code
  | _ => None
  end.

Definition final : World := snd run.

End Main.

(** ** The answers of the driver along a run

    The program passes fixed arguments to the first calls and the results
    of earlier calls to the later ones; these are the answers it gets. *)

Section DriverAnswers.

Variable d : Driver.

Definition resolved_fn : option PFN_vkEnumerateInstanceVersion :=
  on_vkGetInstanceProcAddr d VK_NULL_HANDLE "vkEnumerateInstanceVersion".

Definition loader_version : Z :=
  match resolved_fn with
  | Some fn => u32 (snd (fn VK_API_VERSION_1_0))
  | None => VK_API_VERSION_1_0
  end.

Definition create_status : VkResult :=
  i32 (fst (on_vkCreateInstance d instance_ci)).

Definition created_instance : VkInstance :=
  snd (on_vkCreateInstance d instance_ci).

Definition count_status : VkResult :=
  i32 (fst (on_vkEnumeratePhysicalDevices_count d created_instance)).

Definition count_reported : Z :=
  u32 (snd (on_vkEnumeratePhysicalDevices_count d created_instance)).

Definition fill_answer : VkResult * Z * list VkPhysicalDevice :=
  on_vkEnumeratePhysicalDevices_fill d created_instance count_reported.

Definition fill_status : VkResult := i32 (fst (fst fill_answer)).

(** The count the filling call leaves in [physical_device_count]. *)
Definition count_stored : Z := u32 (snd (fst fill_answer)).

(** The vector after the filling call. *)
Definition buffer_filled : list VkPhysicalDevice :=
  overwrite (repeat VK_NULL_HANDLE (Z.to_nat count_reported)) (snd fill_answer).

(** The elements of the vector that lie below the stored count: those the
    loop can read. *)
Definition handles_reached : list VkPhysicalDevice :=
  firstn (Z.to_nat count_stored) buffer_filled.

(** Which path [main] takes is decided by the creation status and by the
    answer to the count query. *)
Definition listing_decision : bool :=
  (create_status =? VK_SUCCESS) && (count_status =? VK_SUCCESS)
  && negb (count_reported =? 0).

End DriverAnswers.

(** The devices a run on host [h] gets to list: none unless the listing is
    decided and the vector can be constructed. *)
Definition handles_listed (h : Host) (d : Driver) : list VkPhysicalDevice :=
  if listing_decision d then
    match vector_alloc h (count_reported d) with
    | Some _ => []
    | None => handles_reached d
    end
  else [].

Definition properties_listed (h : Host) (d : Driver)
  : list VkPhysicalDeviceProperties :=
  map (on_vkGetPhysicalDeviceProperties d) (handles_listed h d).

(** The driver [d] with the status of its buffer-filling enumeration replaced
    by [s]. *)
Definition with_fill_status (s : VkResult) (d : Driver) : Driver :=
  {| on_vkGetInstanceProcAddr := on_vkGetInstanceProcAddr d;
     on_vkCreateInstance := on_vkCreateInstance d;
     on_vkEnumeratePhysicalDevices_count := on_vkEnumeratePhysicalDevices_count d;
     on_vkEnumeratePhysicalDevices_fill := fun instance capacity =>
       (s,
        snd (fst (on_vkEnumeratePhysicalDevices_fill d instance capacity)),
        snd (on_vkEnumeratePhysicalDevices_fill d instance capacity));
     on_vkGetPhysicalDeviceProperties := on_vkGetPhysicalDeviceProperties d |}.

(** ** The texts the program is expected to print *)

(** What [ApiVersionToStr v] leaves in the buffer: the three fields in
    decimal, with dots. *)
Definition version_text (v : Z) : string :=
  dec (Z.shiftr (u32 v) 22) ++ "." ++
  dec (Z.land (Z.shiftr (u32 v) 12) 1023) ++ "." ++
  dec (Z.land (u32 v) 4095).

Definition banner_line (v : Z) : string :=
  "[vk] Loader supports: Vulkan " ++ version_text v ++ newline.

Definition found_line (count : Z) : string :=
  "[vk] Found " ++ dec (u32 count) ++ " physical device(s)" ++ newline.

(** The device identifier as [%04x] writes it. *)
Definition device_id_text (id : Z) : string := pad0 4 (hex (u32 id)).

Definition device_line (p : VkPhysicalDeviceProperties) : string :=
  "  - " ++ deviceName p ++ " | api " ++ version_text (apiVersion p)
  ++ " | driver 0x" ++ hex (u32 (driverVersion p))
  ++ " | deviceID 0x" ++ device_id_text (deviceID p) ++ newline.

Definition create_failed_line (res : Z) : string :=
  "[vk] vkCreateInstance failed: " ++ sdec (i32 res) ++ newline.

Definition no_devices_line (res count : Z) : string :=
  "[vk] No physical devices found (res=" ++ sdec (i32 res)
  ++ ", count=" ++ dec (u32 count) ++ ")" ++ newline.

Definition sanity_line : string := "[vk] Sanity OK." ++ newline.

(** [s] begins with [pre]. *)
Fixpoint begins_with (pre s : string) : bool :=
  match pre, s with
  | EmptyString, _ => true
  | String a pre', String b s' => Ascii.eqb a b && begins_with pre' s'
  | String _ _, EmptyString => false
  end.

(** The device lines of an output: the pieces that begin like one. *)
Definition device_listing (w : World) : list string :=
  filter (begins_with "  - ") (stdout w).

(** A line that ends in [ | deviceID 0x], exactly four hexadecimal digits and
    a newline. *)
Definition ends_with_4_hex_id (line : string) : bool :=
  match rev (list_ascii_of_string line) with
  | nl :: d4 :: d3 :: d2 :: d1 :: before =>
      Ascii.eqb nl (ascii_of_nat 10)
      && is_hex_digit d1 && is_hex_digit d2
      && is_hex_digit d3 && is_hex_digit d4
      && String.eqb (string_of_list_ascii (firstn 14 before))
                    (string_of_list_ascii
                       (rev (list_ascii_of_string " | deviceID 0x")))
  | _ => false
  end.

(** Versions compared field by field, major first. *)
Definition version_le (a b : Z * Z * Z) : Prop :=
  let '(a1, a2, a3) := a in
  let '(b1, b2, b3) := b in
  a1 < b1 \/ (a1 = b1 /\ (a2 < b2 \/ (a2 = b2 /\ a3 <= b3))).

Definition version_fields (v : Z) : Z * Z * Z :=
  (VK_VERSION_MAJOR v, VK_VERSION_MINOR v, VK_VERSION_PATCH v).

(** [P] holds of the [n] integers from [z] on. *)
Fixpoint all_from (P : Z -> bool) (z : Z) (n : nat) : bool :=
  match n with
  | O => true
  | S n' => P z && all_from P (z + 1) n'
  end.

(** ** The states the paths of [main] end in *)

Section Outcomes.

Variable h : Host.
Variable d : Driver.

Definition loader_calls : list Event :=
  EvGetInstanceProcAddr VK_NULL_HANDLE "vkEnumerateInstanceVersion"
  :: match resolved_fn d with
     | Some _ => [EvEnumerateInstanceVersion]
     | None => []
     end.

(** The state once the banner is printed. *)
Definition after_banner : World :=
  {| static_buf := version_text (loader_version d);
     stdout := [banner_line (loader_version d)];
     stderr := [];
     calls := loader_calls |}.

(** One iteration of the loop, for an index inside the vector. *)
Definition after_device (i : Z) (x : VkPhysicalDevice) (w : World) : World :=
  add_stdout (device_line (on_vkGetPhysicalDeviceProperties d x))
    (set_static_buf
       (version_text (apiVersion (on_vkGetPhysicalDeviceProperties d x)))
       (add_call (EvGetPhysicalDeviceProperties x)
          (add_call (EvVectorRead i true) w))).

Fixpoint after_listing (i : Z) (hs : list VkPhysicalDevice) (w : World)
  : World :=
  match hs with
  | [] => w
  | x :: hs' => after_listing (i + 1) hs' (after_device i x w)
  end.

Fixpoint listing_calls (i : Z) (hs : list VkPhysicalDevice) : list Event :=
  match hs with
  | [] => []
  | x :: hs' =>
      EvVectorRead i true :: EvGetPhysicalDeviceProperties x
      :: listing_calls (i + 1) hs'
  end.

(** The buffer holds the text of the last call. *)
Definition last_version_text (hs : list VkPhysicalDevice) (start : string)
  : string :=
  fold_left
    (fun _ x => version_text (apiVersion (on_vkGetPhysicalDeviceProperties d x)))
    hs start.

Definition create_event : Event :=
  EvCreateInstance instance_ci (create_status d).

Definition count_event : Event :=
  EvEnumeratePhysicalDevices (created_instance d) false (count_status d).

Definition alloc_event : Event := EvVectorAlloc (count_reported d).

Definition fill_event : Event :=
  EvEnumeratePhysicalDevices (created_instance d) true (fill_status d).

Definition destroy_event : Event := EvDestroyInstance (created_instance d).

(** The state when the loop is reached. *)
Definition before_listing : World :=
  add_stdout (found_line (count_stored d))
    (add_call fill_event
       (add_call alloc_event
          (add_call count_event
             (add_call create_event after_banner)))).

(** Context creation failed. *)
Definition world_create_failed : World :=
  {| static_buf := version_text (loader_version d);
     stdout := [banner_line (loader_version d)];
     stderr := [create_failed_line (create_status d)];
     calls := loader_calls ++ [create_event] |}.

(** The context exists, but the count query fails or finds nothing. *)
Definition world_no_devices : World :=
  {| static_buf := version_text (loader_version d);
     stdout := [banner_line (loader_version d)];
     stderr := [no_devices_line (count_status d) (count_reported d)];
     calls := loader_calls ++ [create_event; count_event; destroy_event] |}.

(** The count query reports devices, and the constructor of the vector
    throws [e]: [main] is left at once, and [messages] is what the runtime
    writes before it aborts. *)
Definition world_alloc_failed (messages : list string) : World :=
  {| static_buf := version_text (loader_version d);
     stdout := [banner_line (loader_version d)];
     stderr := messages;
     calls := loader_calls ++ [create_event; count_event; alloc_event] |}.

(** The vector is filled and the stored count fits it: [main] runs to its
    end. *)
Definition world_listed : World :=
  {| static_buf :=
       last_version_text (handles_reached d) (version_text (loader_version d));
     stdout :=
       banner_line (loader_version d)
       :: found_line (count_stored d)
       :: map device_line
              (map (on_vkGetPhysicalDeviceProperties d) (handles_reached d))
          ++ [sanity_line];
     stderr := [];
     calls :=
       loader_calls
       ++ [create_event; count_event; alloc_event; fill_event]
       ++ listing_calls 0 (handles_reached d) ++ [destroy_event] |}.

(** The stored count is larger than the vector: the loop lists the whole
    vector and then reads behind it. *)
Definition world_overrun : World :=
  {| static_buf :=
       last_version_text (handles_reached d) (version_text (loader_version d));
     stdout :=
       banner_line (loader_version d)
       :: found_line (count_stored d)
       :: map device_line
              (map (on_vkGetPhysicalDeviceProperties d) (handles_reached d));
     stderr := [];
     calls :=
       loader_calls
       ++ [create_event; count_event; alloc_event; fill_event]
       ++ listing_calls 0 (handles_reached d)
       ++ [EvVectorRead (count_reported d) false] |}.

Inductive Path : Prop :=
| PathCreateFailed :
    create_status d <> VK_SUCCESS ->
    run h d = (Returned 1, world_create_failed) -> Path
| PathNoDevices :
    create_status d = VK_SUCCESS ->
    count_status d <> VK_SUCCESS \/ count_reported d = 0 ->
    run h d = (Returned 1, world_no_devices) -> Path
| PathAllocFailed (e : Exception) :
    create_status d = VK_SUCCESS ->
    count_status d = VK_SUCCESS ->
    count_reported d <> 0 ->
    vector_alloc h (count_reported d) = Some e ->
    run h d = (Aborted e, world_alloc_failed (terminate_output h e)) -> Path
| PathListed :
    create_status d = VK_SUCCESS ->
    count_status d = VK_SUCCESS ->
    count_reported d <> 0 ->
    vector_alloc h (count_reported d) = None ->
    count_stored d <= count_reported d ->
    run h d = (Returned 0, world_listed) -> Path
| PathOverrun :
    create_status d = VK_SUCCESS ->
    count_status d = VK_SUCCESS ->
    count_reported d <> 0 ->
    vector_alloc h (count_reported d) = None ->
    count_reported d < count_stored d ->
    run h d = (Undefined, world_overrun) -> Path.

End Outcomes.

(** ** The log of calls and the life of the context *)

Definition is_create (e : Event) : bool :=
  match e with EvCreateInstance _ _ => true | _ => false end.

Definition is_destroy (e : Event) : bool :=
  match e with EvDestroyInstance _ => true | _ => false end.

Definition is_enumerate (e : Event) : bool :=
  match e with EvEnumeratePhysicalDevices _ _ _ => true | _ => false end.

(** The enumeration call that fills the buffer. *)
Definition is_fill (e : Event) : bool :=
  match e with EvEnumeratePhysicalDevices _ true _ => true | _ => false end.

Definition is_describe (e : Event) : bool :=
  match e with EvGetPhysicalDeviceProperties _ => true | _ => false end.

Definition is_vector_access (e : Event) : bool :=
  match e with EvVectorAlloc _ | EvVectorRead _ _ => true | _ => false end.

Definition occurrences (p : Event -> bool) (log : list Event) : nat :=
  length (filter p log).

Definition never (p : Event -> bool) (log : list Event) : Prop :=
  forall e, In e log -> p e = false.

(** The three states of the context, and the calls each state allows: a
    context is created from [Uninitialized] only, a failed creation leaves
    the state as it is, devices are enumerated and described while the
    context is live, and only a live context is destroyed. *)
Inductive Lifecycle := Uninitialized | ContextLive | Terminated.

Definition lifecycle_step (s : Lifecycle) (e : Event) : option Lifecycle :=
  match e with
  | EvCreateInstance _ res =>
      match s with
      | Uninitialized =>
          Some (if res =? VK_SUCCESS then ContextLive else Uninitialized)
      | _ => None
      end
  | EvDestroyInstance _ =>
      match s with ContextLive => Some Terminated | _ => None end
  | EvEnumeratePhysicalDevices _ _ _ | EvGetPhysicalDeviceProperties _ =>
      match s with ContextLive => Some ContextLive | _ => None end
  | _ => Some s
  end.

Fixpoint lifecycle (s : Lifecycle) (log : list Event) : option Lifecycle :=
  match log with
  | [] => Some s
  | e :: log' =>
      match lifecycle_step s e with
      | Some s' => lifecycle s' log'
      | None => None
      end
  end.

(** ** Sample hosts and drivers *)

Module Samples.

(** What libstdc++ writes for an exception nobody caught. *)
Definition libstdcxx_terminate (e : Exception) : list string :=
  match e with
  | BadAlloc =>
      ["terminate called after throwing an instance of 'std::bad_alloc'"
         ++ newline;
       "  what():  std::bad_alloc" ++ newline]
  | LengthError =>
      ["terminate called after throwing an instance of 'std::length_error'"
         ++ newline;
       "  what():  cannot create std::vector larger than max_size()"
         ++ newline]
  end.

(** A host on which every vector can be constructed. *)
Definition roomy : Host :=
  {| vector_alloc := fun _ => None;
     terminate_output := libstdcxx_terminate |}.

(** A host that has no room for a vector of 2^30 handles or more. *)
Definition tight : Host :=
  {| vector_alloc := fun n => if n <? 2 ^ 30 then None else Some BadAlloc;
     terminate_output := libstdcxx_terminate |}.

Definition gpu (name : string) (api drv id : Z) : VkPhysicalDeviceProperties :=
  {| deviceName := name; apiVersion := api; driverVersion := drv;
     deviceID := id |}.

Definition props_of (x : VkPhysicalDevice) : VkPhysicalDeviceProperties :=
  if x =? 101 then gpu "GPU A" (VK_MAKE_VERSION 1 3 260) 8388608 9479
  else if x =? 102 then gpu "GPU B" (VK_MAKE_VERSION 1 1 0) 1 100925441
  else gpu "" 0 0 0.

Definition loader_1_3 : VkInstance -> string -> option PFN_vkEnumerateInstanceVersion :=
  fun _ _ => Some (fun _ => (VK_SUCCESS, VK_MAKE_VERSION 1 3 0)).

Definition loader_1_0 : VkInstance -> string -> option PFN_vkEnumerateInstanceVersion :=
  fun _ _ => None.

(** A 1.3 loader and two devices; the second has a device identifier of
    more than sixteen bits. *)
Definition two_gpus : Driver :=
  {| on_vkGetInstanceProcAddr := loader_1_3;
     on_vkCreateInstance := fun _ => (VK_SUCCESS, 7);
     on_vkEnumeratePhysicalDevices_count := fun _ => (VK_SUCCESS, 2);
     on_vkEnumeratePhysicalDevices_fill := fun _ _ =>
       (VK_SUCCESS, 2, [101; 102]);
     on_vkGetPhysicalDeviceProperties := props_of |}.

(** The same machine, the devices enumerated in the other order. *)
Definition two_gpus_swapped : Driver :=
  {| on_vkGetInstanceProcAddr := loader_1_3;
     on_vkCreateInstance := fun _ => (VK_SUCCESS, 7);
     on_vkEnumeratePhysicalDevices_count := fun _ => (VK_SUCCESS, 2);
     on_vkEnumeratePhysicalDevices_fill := fun _ _ =>
       (VK_SUCCESS, 2, [102; 101]);
     on_vkGetPhysicalDeviceProperties := props_of |}.

(** The count query succeeds and reports no device. *)
Definition no_gpu : Driver :=
  {| on_vkGetInstanceProcAddr := loader_1_3;
     on_vkCreateInstance := fun _ => (VK_SUCCESS, 7);
     on_vkEnumeratePhysicalDevices_count := fun _ => (VK_SUCCESS, 0);
     on_vkEnumeratePhysicalDevices_fill := fun _ _ => (VK_SUCCESS, 0, []);
     on_vkGetPhysicalDeviceProperties := props_of |}.

(** [vkCreateInstance] answers -3 ([VK_ERROR_INITIALIZATION_FAILED]); the
    loader is a 1.0 loader. *)
Definition create_fails : Driver :=
  {| on_vkGetInstanceProcAddr := loader_1_0;
     on_vkCreateInstance := fun _ => (-3, VK_NULL_HANDLE);
     on_vkEnumeratePhysicalDevices_count := fun _ => (VK_SUCCESS, 2);
     on_vkEnumeratePhysicalDevices_fill := fun _ _ =>
       (VK_SUCCESS, 2, [101; 102]);
     on_vkGetPhysicalDeviceProperties := props_of |}.

(** The count query answers -1 ([VK_ERROR_OUT_OF_HOST_MEMORY]). *)
Definition count_fails : Driver :=
  {| on_vkGetInstanceProcAddr := loader_1_3;
     on_vkCreateInstance := fun _ => (VK_SUCCESS, 7);
     on_vkEnumeratePhysicalDevices_count := fun _ => (-1, 0);
     on_vkEnumeratePhysicalDevices_fill := fun _ _ => (VK_SUCCESS, 0, []);
     on_vkGetPhysicalDeviceProperties := props_of |}.

(** The count query reports 2^32 - 1 devices. *)
Definition huge_count : Driver :=
  {| on_vkGetInstanceProcAddr := loader_1_3;
     on_vkCreateInstance := fun _ => (VK_SUCCESS, 7);
     on_vkEnumeratePhysicalDevices_count := fun _ => (VK_SUCCESS, 4294967295);
     on_vkEnumeratePhysicalDevices_fill := fun _ _ =>
       (VK_SUCCESS, 2, [101; 102]);
     on_vkGetPhysicalDeviceProperties := props_of |}.

(** The count query reports three devices; the filling call, which fails
    with -4 ([VK_ERROR_DEVICE_LOST]), hands back one and stores 1. *)
Definition one_of_three : Driver :=
  {| on_vkGetInstanceProcAddr := loader_1_3;
     on_vkCreateInstance := fun _ => (VK_SUCCESS, 7);
     on_vkEnumeratePhysicalDevices_count := fun _ => (VK_SUCCESS, 3);
     on_vkEnumeratePhysicalDevices_fill := fun _ _ => (-4, 1, [101]);
     on_vkGetPhysicalDeviceProperties := props_of |}.

(** The count query reports two devices; the filling call stores 3. *)
Definition three_in_two : Driver :=
  {| on_vkGetInstanceProcAddr := loader_1_3;
     on_vkCreateInstance := fun _ => (VK_SUCCESS, 7);
     on_vkEnumeratePhysicalDevices_count := fun _ => (VK_SUCCESS, 2);
     on_vkEnumeratePhysicalDevices_fill := fun _ _ =>
       (VK_SUCCESS, 3, [101; 102]);
     on_vkGetPhysicalDeviceProperties := props_of |}.

End Samples.

(** Two states built from the same pieces differ at most in how the appended
    lists are bracketed. *)
Ltac world_eq :=
  unfold add_call, add_stdout, add_stderr, set_static_buf;
  cbn [fst snd static_buf stdout stderr calls];
  repeat rewrite <- app_assoc;
  cbn [app];
  reflexivity.

Arguments format : simpl never.
Arguments String.substring : simpl never.
Arguments u32 : simpl never.
Arguments i32 : simpl never.
Arguments dec : simpl never.
Arguments hex : simpl never.
Arguments sdec : simpl never.
Arguments version_text : simpl never.
Arguments VK_MAKE_VERSION : simpl never.


(** ** Further observations on a run *)

Definition is_dec_digit (c : ascii) : bool :=
  let n := nat_of_ascii c in ((48 <=? n) && (n <=? 57))%nat.

(** The driver [d] with the status of its [vkEnumerateInstanceVersion], if it
    has one, replaced by [s]. *)
Definition with_version_status (s : VkResult) (d : Driver) : Driver :=
  {| on_vkGetInstanceProcAddr := fun instance name =>
       option_map
         (fun (fn : PFN_vkEnumerateInstanceVersion) pApiVersion =>
            (s, snd (fn pApiVersion)))
         (on_vkGetInstanceProcAddr d instance name);
     on_vkCreateInstance := on_vkCreateInstance d;
     on_vkEnumeratePhysicalDevices_count := on_vkEnumeratePhysicalDevices_count d;
     on_vkEnumeratePhysicalDevices_fill := on_vkEnumeratePhysicalDevices_fill d;
     on_vkGetPhysicalDeviceProperties := on_vkGetPhysicalDeviceProperties d |}.

(** The indices at which a log reads the vector, the sizes with which it
    allocates one, and the devices it asks the properties of, in order. *)
Definition vector_reads (log : list Event) : list Z :=
  flat_map (fun e => match e with EvVectorRead i _ => [i] | _ => [] end) log.


Definition described (log : list Event) : list VkPhysicalDevice :=
  flat_map
    (fun e => match e with EvGetPhysicalDeviceProperties h => [h] | _ => [] end)
    log.


(** * Properties *)

(** ** Sample runs *)

Example ApiVersionToStr_1_1 :
  static_buf (snd (runState (ApiVersionToStr VK_API_VERSION_1_1) initial_world))
  = "1.1.0".
Proof. vm_compute. reflexivity. Qed.

Example format_hex4 :
  format initial_world Literal "id 0x%04x %d%%" [ArgUInt 171; ArgInt (-3)]
  = "id 0x00ab -3%".
Proof. vm_compute. reflexivity. Qed.

Example run_two_gpus :
  outcome Samples.roomy Samples.two_gpus = Returned 0 /\
  stdout (final Samples.roomy Samples.two_gpus) =
    ["[vk] Loader supports: Vulkan 1.3.0" ++ newline;
     "[vk] Found 2 physical device(s)" ++ newline;
     "  - GPU A | api 1.3.260 | driver 0x800000 | deviceID 0x2507" ++ newline;
     "  - GPU B | api 1.1.0 | driver 0x1 | deviceID 0x6040001" ++ newline;
     "[vk] Sanity OK." ++ newline] /\
  stderr (final Samples.roomy Samples.two_gpus) = [].
Proof. vm_compute. repeat split. Qed.

Example run_huge_count :
  outcome Samples.tight Samples.huge_count = Aborted BadAlloc /\
  stdout (final Samples.tight Samples.huge_count) =
    ["[vk] Loader supports: Vulkan 1.3.0" ++ newline] /\
  stderr (final Samples.tight Samples.huge_count) =
    Samples.libstdcxx_terminate BadAlloc.
Proof. vm_compute. repeat split. Qed.

Example run_three_in_two :
  outcome Samples.roomy Samples.three_in_two = Undefined /\
  vector_reads (calls (final Samples.roomy Samples.three_in_two)) = [0; 1; 2].
Proof. vm_compute. repeat split. Qed.

Example format_signed_zero_padding :
  format initial_world Literal "%05d|%5d|%05d" [ArgInt (-3); ArgInt (-3); ArgInt 3]
  = "-0003|   -3|00003".
Proof. vm_compute. reflexivity. Qed.

Example baseline_fields : version_fields VK_API_VERSION_1_0 = (1, 0, 0).
Proof. vm_compute. reflexivity. Qed.

(** ** Fixed-width integers *)

Lemma u32_range (z : Z) : 0 <= u32 z < 2 ^ 32.
Proof. unfold u32. apply Z.mod_pos_bound. lia. Qed.

Lemma u32_small (z : Z) : 0 <= z < 2 ^ 32 -> u32 z = z.
Proof. intros H. unfold u32. apply Z.mod_small. exact H. Qed.

Lemma u32_idem (z : Z) : u32 (u32 z) = u32 z.
Proof. apply u32_small, u32_range. Qed.

Lemma i32_range (z : Z) : - 2 ^ 31 <= i32 z < 2 ^ 31.
Proof.
  unfold i32.
  pose proof (Z.mod_pos_bound (z + 2 ^ 31) (2 ^ 32)). lia.
Qed.

Lemma i32_small (z : Z) : - 2 ^ 31 <= z < 2 ^ 31 -> i32 z = z.
Proof.
  intros H. unfold i32. rewrite Z.mod_small; lia.
Qed.

Lemma i32_idem (z : Z) : i32 (i32 z) = i32 z.
Proof. apply i32_small, i32_range. Qed.

(** ** Version numbers *)

Lemma VK_VERSION_MAJOR_range (v : Z) : 0 <= VK_VERSION_MAJOR v < 1024.
Proof.
  unfold VK_VERSION_MAJOR. rewrite Z.shiftr_div_pow2 by lia.
  pose proof (u32_range v) as H.
  split.
  - apply Z.div_pos; lia.
  - apply Z.div_lt_upper_bound; lia.
Qed.

Lemma VK_VERSION_MINOR_range (v : Z) : 0 <= VK_VERSION_MINOR v < 1024.
Proof.
  unfold VK_VERSION_MINOR.
  change 1023 with (Z.ones 10). rewrite Z.land_ones by lia.
  apply Z.mod_pos_bound. lia.
Qed.

Lemma VK_VERSION_PATCH_range (v : Z) : 0 <= VK_VERSION_PATCH v < 4096.
Proof.
  unfold VK_VERSION_PATCH.
  change 4095 with (Z.ones 12). rewrite Z.land_ones by lia.
  apply Z.mod_pos_bound. lia.
Qed.

(** The three fields determine the packed number. *)
Lemma version_unpack (v : Z) :
  u32 v = VK_VERSION_MAJOR v * 2 ^ 22 + VK_VERSION_MINOR v * 2 ^ 12
          + VK_VERSION_PATCH v.
Proof.
  unfold VK_VERSION_MAJOR, VK_VERSION_MINOR, VK_VERSION_PATCH.
  change 1023 with (Z.ones 10). change 4095 with (Z.ones 12).
  rewrite !Z.land_ones, !Z.shiftr_div_pow2 by lia.
  set (x := u32 v).
  pose proof (Z.div_mod x (2 ^ 12) ltac:(lia)) as H1.
  pose proof (Z.div_mod (x / 2 ^ 12) (2 ^ 10) ltac:(lia)) as H2.
  rewrite Z.div_div in H2 by lia.
  change (2 ^ 12 * 2 ^ 10) with (2 ^ 22) in H2.
  lia.
Qed.

(** The order of the packed numbers is the order on (major, minor, patch). *)
Lemma version_le_packed (a b : Z) :
  version_le (version_fields a) (version_fields b) <-> u32 a <= u32 b.
Proof.
  unfold version_le, version_fields.
  rewrite (version_unpack a), (version_unpack b).
  pose proof (VK_VERSION_MINOR_range a). pose proof (VK_VERSION_MINOR_range b).
  pose proof (VK_VERSION_PATCH_range a). pose proof (VK_VERSION_PATCH_range b).
  pose proof (VK_VERSION_MAJOR_range a). pose proof (VK_VERSION_MAJOR_range b).
  lia.
Qed.

(** ** Digits *)

Lemma dec_read (z : Z) : 0 <= z -> read_dec (dec z) = Some z.
Proof.
  intros H. unfold read_dec, dec.
  rewrite DecimalString.NilZero.usu.
  - cbn. rewrite DecimalN.Unsigned.of_to. f_equal. lia.
  - destruct (Z.to_N z); cbn; [discriminate|].
    apply DecimalPos.Unsigned.to_uint_nonnil.
Qed.

Lemma hex_read (z : Z) : 0 <= z -> read_hex (hex z) = Some z.
Proof.
  intros H. unfold read_hex, hex.
  rewrite HexadecimalString.NilZero.usu.
  - cbn. rewrite HexadecimalN.Unsigned.of_to. f_equal. lia.
  - destruct (Z.to_N z); cbn; [discriminate|].
    apply HexadecimalPos.Unsigned.to_uint_nonnil.
Qed.

Lemma hex_digits_uint (u : Hexadecimal.uint) :
  all_chars is_hex_digit (HexadecimalString.NilEmpty.string_of_uint u) = true.
Proof. induction u; cbn; auto. Qed.

Lemma hex_digits (z : Z) : all_chars is_hex_digit (hex z) = true.
Proof.
  unfold hex, HexadecimalString.NilZero.string_of_uint.
  destruct (N.to_hex_uint (Z.to_N z)) eqn:E; try reflexivity;
    rewrite <- E; apply hex_digits_uint.
Qed.

(** Bounds on the number of digits, by running through the finitely many
    values below the bound. *)
Lemma all_from_spec (P : Z -> bool) (n : nat) :
  forall z0, all_from P z0 n = true ->
  forall z, z0 <= z < z0 + Z.of_nat n -> P z = true.
Proof.
  induction n as [|n IH]; intros z0 Hall z Hz.
  - lia.
  - cbn [all_from] in Hall. apply andb_true_iff in Hall as [Hz0 Hrest].
    destruct (Z.eq_dec z z0) as [->|Hne]; [exact Hz0|].
    apply (IH (z0 + 1) Hrest). lia.
Qed.

Lemma below_bound_all (P : Z -> bool) (bound : Z) :
  all_from P 0 (Z.to_nat bound) = true ->
  forall z, 0 <= z < bound -> P z = true.
Proof.
  intros Hall z Hz. apply (all_from_spec P _ 0 Hall). lia.
Qed.

Lemma dec_length_4096 (z : Z) :
  0 <= z < 4096 -> (String.length (dec z) <= 4)%nat.
Proof.
  intros H. apply Nat.leb_le.
  apply (below_bound_all (fun z => (String.length (dec z) <=? 4)%nat) 4096);
    [vm_compute; reflexivity | exact H].
Qed.

Lemma hex_length_65536 (z : Z) :
  0 <= z < 65536 -> (String.length (hex z) <= 4)%nat.
Proof.
  intros H. apply Nat.leb_le.
  apply (below_bound_all (fun z => (String.length (hex z) <=? 4)%nat) 65536);
    [vm_compute; reflexivity | exact H].
Qed.

(** ** Strings *)

Lemma string_length_app (s t : string) :
  String.length (s ++ t) = (String.length s + String.length t)%nat.
Proof. induction s as [|c s IH]; cbn; [reflexivity | now rewrite IH]. Qed.

Lemma substring_whole (s : string) (n : nat) :
  (String.length s <= n)%nat -> String.substring 0 n s = s.
Proof.
  revert n. induction s as [|c s IH]; intros [|n] H; cbn [String.length] in *;
    try reflexivity; try lia.
  change (String c (String.substring 0 n s) = String c s).
  f_equal. apply IH. lia.
Qed.

Lemma append_empty_r (s : string) : s ++ "" = s.
Proof. induction s as [|c s IH]; cbn; [reflexivity | now rewrite IH]. Qed.

Lemma zeros_length (n : nat) : String.length (zeros n) = n.
Proof. induction n; cbn; congruence. Qed.

Lemma pad0_length (width : nat) (s : string) :
  String.length (pad0 width s) = Nat.max width (String.length s).
Proof. unfold pad0. rewrite string_length_app, zeros_length. lia. Qed.

Lemma all_chars_app (p : ascii -> bool) (s t : string) :
  all_chars p (s ++ t) = all_chars p s && all_chars p t.
Proof.
  induction s as [|c s IH]; cbn; [reflexivity|].
  now rewrite IH, andb_assoc.
Qed.

Lemma zeros_hex (n : nat) : all_chars is_hex_digit (zeros n) = true.
Proof. induction n; cbn; auto. Qed.

Lemma version_text_length (v : Z) : (String.length (version_text v) <= 14)%nat.
Proof.
  unfold version_text. rewrite !string_length_app.
  pose proof (VK_VERSION_MAJOR_range v) as HM.
  pose proof (VK_VERSION_MINOR_range v) as Hm.
  pose proof (VK_VERSION_PATCH_range v) as Hp.
  unfold VK_VERSION_MAJOR, VK_VERSION_MINOR, VK_VERSION_PATCH in *.
  pose proof (dec_length_4096 (Z.shiftr (u32 v) 22) ltac:(lia)).
  pose proof (dec_length_4096 (Z.land (Z.shiftr (u32 v) 12) 1023) ltac:(lia)).
  pose proof (dec_length_4096 (Z.land (u32 v) 4095) ltac:(lia)).
  cbn [String.length]. lia.
Qed.

(** ** What [printf] makes of the format strings of the program *)

Section FormatEquations.

Variable w : World.

Lemma format_version (a b c : Z) :
  format w Literal "%u.%u.%u" [ArgUInt a; ArgUInt b; ArgUInt c]
  = dec (u32 a) ++ "." ++ dec (u32 b) ++ "." ++ dec (u32 c).
Proof.
  transitivity (dec (u32 a) ++ "." ++ dec (u32 b) ++ "." ++ dec (u32 c) ++ "");
    [reflexivity | now rewrite append_empty_r].
Qed.

Lemma format_banner (p : cstr_ptr) :
  format w Literal ("[vk] Loader supports: Vulkan %s" ++ newline) [ArgStr p]
  = "[vk] Loader supports: Vulkan " ++ deref w p ++ newline.
Proof. reflexivity. Qed.

Lemma format_found (n : Z) :
  format w Literal ("[vk] Found %u physical device(s)" ++ newline) [ArgUInt n]
  = found_line n.
Proof. reflexivity. Qed.

Lemma format_device (name : string) (p : cstr_ptr) (drv id : Z) :
  format w Literal
         ("  - %s | api %s | driver 0x%x | deviceID 0x%04x" ++ newline)
         [ArgStr (PtrArray name); ArgStr p; ArgUInt drv; ArgUInt id]
  = "  - " ++ name ++ " | api " ++ deref w p ++ " | driver 0x"
    ++ hex (u32 drv) ++ " | deviceID 0x" ++ device_id_text id ++ newline.
Proof. reflexivity. Qed.

Lemma format_create_failed (res : Z) :
  format w Literal ("[vk] vkCreateInstance failed: %d" ++ newline)
         [ArgInt res]
  = create_failed_line res.
Proof. reflexivity. Qed.

Lemma format_no_devices (res n : Z) :
  format w Literal
         ("[vk] No physical devices found (res=%d, count=%u)" ++ newline)
         [ArgInt res; ArgUInt n]
  = no_devices_line res n.
Proof. reflexivity. Qed.

End FormatEquations.

(** ** Running the monad *)

Lemma run_bind {A B : Type} (c : M A) (f : A -> M B) (w : World) :
  runState (bind c f) w = runState (f (fst (runState c w))) (snd (runState c w)).
Proof. cbn. destruct (runState c w). reflexivity. Qed.

Lemma run_ret {A : Type} (a : A) (w : World) : runState (ret a : M A) w = (a, w).
Proof. reflexivity. Qed.

Lemma run_emit (e : Event) (w : World) : runState (emit e) w = (tt, add_call e w).
Proof. reflexivity. Qed.

Lemma run_printf (fmt : string) (args : list printf_arg) (w : World) :
  runState (printf fmt args) w = (tt, add_stdout (format w Literal fmt args) w).
Proof. reflexivity. Qed.

Lemma run_fprintf_stderr (fmt : string) (args : list printf_arg) (w : World) :
  runState (fprintf_stderr fmt args) w
  = (tt, add_stderr (format w Literal fmt args) w).
Proof. reflexivity. Qed.

Lemma run_puts (s : string) (w : World) :
  runState (puts s) w = (tt, add_stdout (s ++ newline) w).
Proof. reflexivity. Qed.

(** [ApiVersionToStr] returns the address of the static buffer, which then
    holds the version text in full: 63 characters are more than enough. *)
Lemma run_ApiVersionToStr (v : Z) (w : World) :
  runState (ApiVersionToStr v) w
  = (PtrStaticBuf, set_static_buf (version_text v) w).
Proof.
  unfold ApiVersionToStr, snprintf_static_buf.
  rewrite run_bind, run_ret. cbn [runState fst snd].
  rewrite format_version.
  pose proof (VK_VERSION_MAJOR_range (u32 v)) as HM.
  pose proof (VK_VERSION_MINOR_range (u32 v)) as Hm.
  pose proof (VK_VERSION_PATCH_range (u32 v)) as Hp.
  rewrite (u32_small (VK_VERSION_MAJOR (u32 v))),
    (u32_small (VK_VERSION_MINOR (u32 v))),
    (u32_small (VK_VERSION_PATCH (u32 v))) by lia.
  unfold VK_VERSION_MAJOR, VK_VERSION_MINOR, VK_VERSION_PATCH.
  rewrite u32_idem.
  fold (version_text v).
  rewrite substring_whole; [reflexivity|].
  pose proof (version_text_length v). cbn. lia.
Qed.

Lemma run_vkDestroyInstance (instance : VkInstance) (w : World) :
  runState (vkDestroyInstance instance) w
  = (tt, add_call (EvDestroyInstance instance) w).
Proof. reflexivity. Qed.

(** The same for computations that may stop. *)

Lemma exec_bind {A B : Type} (c : ME A) (f : A -> ME B) (w : World) :
  exec (bind c f) w
  = match exec c w with
    | (inr a, w') => exec (f a) w'
    | (inl s, w') => (inl s, w')
    end.
Proof.
  unfold exec. cbn.
  destruct (runState (unEitherT c) w) as [[s|a] w']; reflexivity.
Qed.

Lemma exec_lift {A : Type} (c : M A) (w : World) :
  exec (lift c) w = (inr (fst (runState c w)), snd (runState c w)).
Proof. unfold exec. cbn. destruct (runState c w). reflexivity. Qed.

Lemma exec_ret {A : Type} (a : A) (w : World) :
  exec (ret a : ME A) w = (inr a, w).
Proof. reflexivity. Qed.

Lemma exec_raise {A : Type} (s : Stop) (w : World) :
  exec (raise s : ME A) w = (inl s, w).
Proof. reflexivity. Qed.

(** A step that cannot stop, followed by the rest. *)
Lemma exec_lift_bind {A B : Type} (c : M A) (f : A -> ME B) (w : World) :
  exec (bind (lift c) f) w
  = exec (f (fst (runState c w))) (snd (runState c w)).
Proof. now rewrite exec_bind, exec_lift. Qed.

Lemma exec_vector_new (h : Host) (n : Z) (w : World) :
  exec (vector_new h n) w
  = match vector_alloc h n with
    | Some e => (inl (Thrown e), add_call (EvVectorAlloc n) w)
    | None => (inr (repeat VK_NULL_HANDLE (Z.to_nat n)),
               add_call (EvVectorAlloc n) w)
    end.
Proof.
  unfold vector_new. rewrite exec_lift_bind, run_emit. cbn [fst snd].
  destruct (vector_alloc h n); reflexivity.
Qed.

Lemma exec_vector_at_in_range (v : list VkPhysicalDevice) (i : Z)
      (x : VkPhysicalDevice) (w : World) :
  nth_error v (Z.to_nat i) = Some x ->
  exec (vector_at v i) w = (inr x, add_call (EvVectorRead i true) w).
Proof. intros H. unfold vector_at. rewrite H. reflexivity. Qed.

Lemma exec_vector_at_out_of_range (v : list VkPhysicalDevice) (i : Z)
      (w : World) :
  nth_error v (Z.to_nat i) = None ->
  exec (vector_at v i) w
  = (inl UndefinedBehaviour, add_call (EvVectorRead i false) w).
Proof. intros H. unfold vector_at. rewrite H. reflexivity. Qed.

Lemma run_vkGetPhysicalDeviceProperties (d : Driver) (h : VkPhysicalDevice)
      (w : World) :
  runState (vkGetPhysicalDeviceProperties d h) w
  = (on_vkGetPhysicalDeviceProperties d h,
     add_call (EvGetPhysicalDeviceProperties h) w).
Proof. reflexivity. Qed.

Lemma run_queryLoaderVersion (d : Driver) (w : World) :
  runState (queryLoaderVersion d) w
  = (loader_version d,
     fold_left (fun w e => add_call e w) (loader_calls d) w).
Proof.
  unfold queryLoaderVersion, loader_version, loader_calls,
    vkGetInstanceProcAddr, call_enumerate_instance_version.
  rewrite !run_bind, run_emit, run_ret. cbn [fst snd].
  fold (resolved_fn d). destruct (resolved_fn d) as [fn|]; [|reflexivity].
  rewrite !run_bind, run_emit. cbn [fst snd].
  destruct (fn VK_API_VERSION_1_0) as [res v]. reflexivity.
Qed.

Lemma world_ext (w1 w2 : World) :
  static_buf w1 = static_buf w2 -> stdout w1 = stdout w2 ->
  stderr w1 = stderr w2 -> calls w1 = calls w2 -> w1 = w2.
Proof. destruct w1, w2; cbn; intros; subst; reflexivity. Qed.

(** ** The vector after the filling call *)

Lemma overwrite_length {A : Type} (buffer : list A) :
  forall written, length (overwrite buffer written) = length buffer.
Proof.
  induction buffer as [|b buffer IH]; intros [|x written]; cbn; auto.
Qed.

Lemma buffer_filled_length (d : Driver) :
  length (buffer_filled d) = Z.to_nat (count_reported d).
Proof. unfold buffer_filled. now rewrite overwrite_length, repeat_length. Qed.

Lemma count_reported_range (d : Driver) : 0 <= count_reported d < 2 ^ 32.
Proof. apply u32_range. Qed.

Lemma count_stored_range (d : Driver) : 0 <= count_stored d < 2 ^ 32.
Proof. apply u32_range. Qed.

Lemma handles_reached_length (d : Driver) :
  length (handles_reached d)
  = Nat.min (Z.to_nat (count_stored d)) (Z.to_nat (count_reported d)).
Proof.
  unfold handles_reached. now rewrite length_firstn, buffer_filled_length.
Qed.

Lemma handles_reached_fits (d : Driver) :
  count_stored d <= count_reported d ->
  Z.of_nat (length (handles_reached d)) = count_stored d.
Proof.
  intros H. rewrite handles_reached_length.
  pose proof (count_stored_range d). lia.
Qed.

Lemma handles_reached_overrun (d : Driver) :
  count_reported d < count_stored d ->
  handles_reached d = buffer_filled d.
Proof.
  intros H. unfold handles_reached. apply firstn_all2.
  rewrite buffer_filled_length. lia.
Qed.

(** ** The loop over the devices *)

Section Listing.

Variable d : Driver.

Lemma exec_print_device (devs : list VkPhysicalDevice) (i : Z)
      (x : VkPhysicalDevice) (w : World) :
  nth_error devs (Z.to_nat i) = Some x ->
  exec (print_device d devs i) w = (inr tt, after_device d i x w).
Proof.
  intros Hnth. unfold print_device.
  rewrite exec_bind, (exec_vector_at_in_range _ _ _ _ Hnth).
  rewrite exec_lift_bind, run_vkGetPhysicalDeviceProperties. cbn [fst snd].
  rewrite exec_lift_bind, run_ApiVersionToStr. cbn [fst snd].
  rewrite exec_lift, run_printf, format_device. reflexivity.
Qed.

Lemma exec_print_device_out_of_range (devs : list VkPhysicalDevice) (i : Z)
      (w : World) :
  nth_error devs (Z.to_nat i) = None ->
  exec (print_device d devs i) w
  = (inl UndefinedBehaviour, add_call (EvVectorRead i false) w).
Proof.
  intros Hnth. unfold print_device.
  now rewrite exec_bind, (exec_vector_at_out_of_range _ _ _ Hnth).
Qed.

Lemma exec_for_range (rest : list VkPhysicalDevice) :
  forall (before behind : list VkPhysicalDevice) (w : World),
    exec (for_range (Z.of_nat (length before)) (length rest)
                    (print_device d (before ++ rest ++ behind))) w
    = (inr tt, after_listing d (Z.of_nat (length before)) rest w).
Proof.
  induction rest as [|x rest IH]; intros before behind w.
  - reflexivity.
  - cbn [length for_range after_listing].
    rewrite exec_bind.
    rewrite (exec_print_device _ _ x).
    + replace (Z.of_nat (length before) + 1)
        with (Z.of_nat (length (before ++ [x])))
        by (rewrite List.length_app; cbn; lia).
      replace (before ++ (x :: rest) ++ behind)%list
        with ((before ++ [x]) ++ rest ++ behind)%list
        by (rewrite <- app_assoc; reflexivity).
      apply IH.
    + rewrite Nat2Z.id, nth_error_app2 by lia.
      rewrite Nat.sub_diag. reflexivity.
Qed.

(** The loop over a prefix of the vector runs to its end. *)
Lemma exec_for_range_prefix (hs behind : list VkPhysicalDevice) (w : World) :
  exec (for_range 0 (length hs) (print_device d (hs ++ behind))) w
  = (inr tt, after_listing d 0 hs w).
Proof. exact (exec_for_range hs [] behind w). Qed.

(** Two stretches of the loop, one after the other. *)
Lemma exec_for_range_add (body : Z -> ME unit) (n m : nat) :
  forall i w,
    exec (for_range i (n + m) body) w
    = match exec (for_range i n body) w with
      | (inr _, w') => exec (for_range (i + Z.of_nat n) m body) w'
      | (inl s, w') => (inl s, w')
      end.
Proof.
  induction n as [|n IH]; intros i w.
  - cbn [for_range Nat.add]. rewrite exec_ret. now rewrite Z.add_0_r.
  - cbn [for_range Nat.add]. rewrite !exec_bind.
    destruct (exec (body i) w) as [[s|[]] w']; [reflexivity|].
    rewrite IH. replace (i + 1 + Z.of_nat n) with (i + Z.of_nat (S n)) by lia.
    reflexivity.
Qed.

(** The loop with a bound behind the end of the vector lists the vector and
    stops at the first index behind it. *)
Lemma exec_for_range_overrun (devs : list VkPhysicalDevice) (m : nat)
      (w : World) :
  exec (for_range 0 (length devs + S m) (print_device d devs)) w
  = (inl UndefinedBehaviour,
     add_call (EvVectorRead (Z.of_nat (length devs)) false)
              (after_listing d 0 devs w)).
Proof.
  rewrite exec_for_range_add.
  pose proof (exec_for_range_prefix devs [] w) as H.
  rewrite app_nil_r in H. rewrite H.
  cbn [for_range Z.add]. rewrite exec_bind.
  rewrite exec_print_device_out_of_range; [reflexivity|].
  apply nth_error_None. rewrite Nat2Z.id. lia.
Qed.

Lemma after_listing_stdout (hs : list VkPhysicalDevice) :
  forall i w,
    stdout (after_listing d i hs w)
    = (stdout w
       ++ map device_line (map (on_vkGetPhysicalDeviceProperties d) hs))%list.
Proof.
  induction hs as [|x hs IH]; intros i w; cbn [after_listing map].
  - now rewrite app_nil_r.
  - rewrite IH. cbn. rewrite <- app_assoc. reflexivity.
Qed.

Lemma after_listing_static_buf (hs : list VkPhysicalDevice) :
  forall i w,
    static_buf (after_listing d i hs w)
    = last_version_text d hs (static_buf w).
Proof.
  induction hs as [|x hs IH]; intros i w; cbn [after_listing];
    [reflexivity | now rewrite IH].
Qed.

Lemma after_listing_stderr (hs : list VkPhysicalDevice) :
  forall i w, stderr (after_listing d i hs w) = stderr w.
Proof.
  induction hs as [|x hs IH]; intros i w; cbn [after_listing];
    [reflexivity | now rewrite IH].
Qed.

Lemma after_listing_calls (hs : list VkPhysicalDevice) :
  forall i w,
    calls (after_listing d i hs w) = (calls w ++ listing_calls i hs)%list.
Proof.
  induction hs as [|x hs IH]; intros i w; cbn [after_listing listing_calls].
  - now rewrite app_nil_r.
  - rewrite IH. cbn. rewrite <- !app_assoc. reflexivity.
Qed.

End Listing.

(** ** The paths through [main] *)

Lemma terminate_messages (messages : list string) :
  forall w,
    fold_left (fun w s => add_stderr s w) messages w
    = {| static_buf := static_buf w; stdout := stdout w;
         stderr := (stderr w ++ messages)%list; calls := calls w |}.
Proof.
  induction messages as [|s messages IH]; intros w; cbn [fold_left].
  - rewrite app_nil_r. now destruct w.
  - rewrite IH. cbn. now rewrite <- app_assoc.
Qed.

Section Paths.

Variable h : Host.
Variable d : Driver.

Lemma main_prelude {A : Type} (k : ME A) :
  exec (loader_version <- lift (queryLoaderVersion d) ;;
        banner <- lift (ApiVersionToStr loader_version) ;;
        lift (printf ("[vk] Loader supports: Vulkan %s" ++ newline)
                     [ArgStr banner]) ;;
        k) initial_world
  = exec k (after_banner d).
Proof.
  rewrite exec_lift_bind, run_queryLoaderVersion. cbn [fst snd].
  rewrite exec_lift_bind, run_ApiVersionToStr. cbn [fst snd].
  rewrite exec_lift_bind, run_printf, format_banner. cbn [fst snd].
  f_equal. unfold after_banner, loader_calls.
  destruct (resolved_fn d); reflexivity.
Qed.

Lemma exec_main_create_failed :
  create_status d <> VK_SUCCESS ->
  exec (main h d) initial_world = (inr 1, world_create_failed d).
Proof.
  intros Hfail. unfold main. rewrite main_prelude.
  unfold vkCreateInstance, create_status in *.
  destruct (on_vkCreateInstance d instance_ci) as [res inst] eqn:E.
  cbn [fst snd] in Hfail.
  rewrite exec_lift_bind, run_bind, run_emit, run_ret. cbn [fst snd].
  destruct (Z.eqb_spec (i32 res) VK_SUCCESS) as [Heq|_]; [contradiction|].
  cbn [negb].
  rewrite exec_lift_bind, run_fprintf_stderr, format_create_failed, exec_ret.
  unfold world_create_failed, create_event, create_status.
  rewrite E. reflexivity.
Qed.

Lemma exec_main_no_devices :
  create_status d = VK_SUCCESS ->
  count_status d <> VK_SUCCESS \/ count_reported d = 0 ->
  exec (main h d) initial_world = (inr 1, world_no_devices d).
Proof.
  intros Hok Hnone. unfold main. rewrite main_prelude.
  unfold world_no_devices, create_event, count_event, destroy_event.
  unfold vkCreateInstance, vkEnumeratePhysicalDevices,
    count_status, count_reported, create_status, created_instance in *.
  destruct (on_vkCreateInstance d instance_ci) as [res inst] eqn:E.
  cbn [fst snd] in *.
  rewrite exec_lift_bind, run_bind, run_emit, run_ret. cbn [fst snd].
  rewrite Hok. cbn [Z.eqb VK_SUCCESS negb].
  destruct (on_vkEnumeratePhysicalDevices_count d inst) as [res1 n] eqn:E1.
  cbn [fst snd] in *.
  rewrite exec_lift_bind, run_bind, run_emit, run_ret. cbn [fst snd].
  assert (negb (i32 res1 =? VK_SUCCESS) || (u32 n =? 0) = true) as ->.
  { destruct Hnone as [H|H].
    - destruct (Z.eqb_spec (i32 res1) VK_SUCCESS); [contradiction|reflexivity].
    - rewrite H. apply orb_true_r. }
  rewrite exec_lift_bind, run_fprintf_stderr, format_no_devices. cbn [fst snd].
  rewrite exec_lift_bind, run_vkDestroyInstance, exec_ret.
  f_equal. world_eq.
Qed.

(** The state when the constructor of the vector is reached. *)
Lemma main_to_vector :
  create_status d = VK_SUCCESS ->
  count_status d = VK_SUCCESS ->
  count_reported d <> 0 ->
  exec (main h d) initial_world
  = exec (physical_devices <- vector_new h (count_reported d) ;;
          filled <- lift (vkEnumeratePhysicalDevices d (created_instance d)
                            (count_reported d) (Some physical_devices)) ;;
          let '(_, physical_device_count, physical_devices) := filled in
          lift (printf ("[vk] Found %u physical device(s)" ++ newline)
                       [ArgUInt physical_device_count]) ;;
          for_range 0 (Z.to_nat physical_device_count)
                    (print_device d physical_devices) ;;
          lift (vkDestroyInstance (created_instance d)) ;;
          lift (puts "[vk] Sanity OK.") ;;
          ret 0)
         (add_call (count_event d) (add_call (create_event d) (after_banner d))).
Proof.
  intros Hok Hcount Hsome. unfold main. rewrite main_prelude.
  unfold create_event, count_event.
  unfold vkCreateInstance, count_status, count_reported, create_status,
    created_instance in *.
  destruct (on_vkCreateInstance d instance_ci) as [res inst] eqn:E.
  cbn [fst snd] in *.
  rewrite exec_lift_bind, run_bind, run_emit, run_ret. cbn [fst snd].
  rewrite Hok. cbn [Z.eqb VK_SUCCESS negb].
  unfold vkEnumeratePhysicalDevices at 1.
  destruct (on_vkEnumeratePhysicalDevices_count d inst) as [res1 n] eqn:E1.
  cbn [fst snd] in *.
  rewrite exec_lift_bind, run_bind, run_emit, run_ret. cbn [fst snd].
  rewrite Hcount. cbn [Z.eqb VK_SUCCESS negb orb].
  destruct (Z.eqb_spec (u32 n) 0) as [H0|_]; [contradiction|].
  reflexivity.
Qed.

Lemma exec_main_alloc_failed (e : Exception) :
  create_status d = VK_SUCCESS ->
  count_status d = VK_SUCCESS ->
  count_reported d <> 0 ->
  vector_alloc h (count_reported d) = Some e ->
  exec (main h d) initial_world = (inl (Thrown e), world_alloc_failed d []).
Proof.
  intros Hok Hcount Hsome Halloc.
  rewrite main_to_vector by assumption.
  rewrite exec_bind, exec_vector_new, Halloc.
  f_equal. unfold world_alloc_failed, alloc_event. world_eq.
Qed.

Lemma main_to_loop :
  create_status d = VK_SUCCESS ->
  count_status d = VK_SUCCESS ->
  count_reported d <> 0 ->
  vector_alloc h (count_reported d) = None ->
  exec (main h d) initial_world
  = exec (for_range 0 (Z.to_nat (count_stored d))
                    (print_device d (buffer_filled d)) ;;
          lift (vkDestroyInstance (created_instance d)) ;;
          lift (puts "[vk] Sanity OK.") ;;
          ret 0)
         (before_listing d).
Proof.
  intros Hok Hcount Hsome Halloc.
  rewrite main_to_vector by assumption.
  rewrite exec_bind, exec_vector_new, Halloc.
  unfold before_listing, fill_event, alloc_event, fill_status, count_stored,
    buffer_filled, fill_answer.
  unfold vkEnumeratePhysicalDevices.
  destruct (on_vkEnumeratePhysicalDevices_fill d (created_instance d)
              (count_reported d)) as [[res2 n2] handles] eqn:E2.
  cbn [fst snd].
  rewrite exec_lift_bind, run_bind, run_emit, run_ret. cbn [fst snd].
  rewrite exec_lift_bind, run_printf, format_found. cbn [fst snd].
  reflexivity.
Qed.

Lemma exec_main_listed :
  create_status d = VK_SUCCESS ->
  count_status d = VK_SUCCESS ->
  count_reported d <> 0 ->
  vector_alloc h (count_reported d) = None ->
  count_stored d <= count_reported d ->
  exec (main h d) initial_world = (inr 0, world_listed d).
Proof.
  intros Hok Hcount Hsome Halloc Hfits.
  rewrite main_to_loop by assumption.
  pose proof (handles_reached_fits d Hfits) as Hlen.
  assert (buffer_filled d
          = (handles_reached d
             ++ skipn (Z.to_nat (count_stored d)) (buffer_filled d))%list)
    as Hsplit by (symmetry; apply firstn_skipn).
  rewrite Hsplit at 1.
  replace (Z.to_nat (count_stored d)) with (length (handles_reached d)) at 1
    by lia.
  rewrite exec_bind, exec_for_range_prefix.
  rewrite exec_lift_bind, run_vkDestroyInstance. cbn [fst snd].
  rewrite exec_lift_bind, run_puts, exec_ret.
  f_equal. unfold before_listing, world_listed. cbn [fst snd].
  apply world_ext;
    cbn [static_buf stdout stderr calls add_stdout add_call];
    rewrite ?after_listing_static_buf, ?after_listing_stdout,
      ?after_listing_stderr, ?after_listing_calls;
    cbn [static_buf stdout stderr calls add_stdout add_call after_banner];
    repeat rewrite <- app_assoc; reflexivity.
Qed.

Lemma exec_main_overrun :
  create_status d = VK_SUCCESS ->
  count_status d = VK_SUCCESS ->
  count_reported d <> 0 ->
  vector_alloc h (count_reported d) = None ->
  count_reported d < count_stored d ->
  exec (main h d) initial_world = (inl UndefinedBehaviour, world_overrun d).
Proof.
  intros Hok Hcount Hsome Halloc Hover.
  rewrite main_to_loop by assumption.
  pose proof (buffer_filled_length d) as Hlen.
  pose proof (count_reported_range d) as Hr.
  replace (Z.to_nat (count_stored d))
    with (length (buffer_filled d)
          + S (Z.to_nat (count_stored d) - length (buffer_filled d) - 1))%nat
    by lia.
  rewrite exec_bind, exec_for_range_overrun.
  f_equal. unfold before_listing, world_overrun. cbn [fst snd].
  rewrite (handles_reached_overrun d Hover).
  replace (Z.of_nat (length (buffer_filled d))) with (count_reported d) by lia.
  apply world_ext;
    cbn [static_buf stdout stderr calls add_stdout add_call];
    rewrite ?after_listing_static_buf, ?after_listing_stdout,
      ?after_listing_stderr, ?after_listing_calls;
    cbn [static_buf stdout stderr calls add_stdout add_call after_banner];
    repeat rewrite <- app_assoc; reflexivity.
Qed.

Lemma run_create_failed :
  create_status d <> VK_SUCCESS ->
  run h d = (Returned 1, world_create_failed d).
Proof. intros H. unfold run. now rewrite exec_main_create_failed. Qed.

Lemma run_no_devices :
  create_status d = VK_SUCCESS ->
  count_status d <> VK_SUCCESS \/ count_reported d = 0 ->
  run h d = (Returned 1, world_no_devices d).
Proof. intros H1 H2. unfold run. now rewrite exec_main_no_devices. Qed.

Lemma run_alloc_failed (e : Exception) :
  create_status d = VK_SUCCESS ->
  count_status d = VK_SUCCESS ->
  count_reported d <> 0 ->
  vector_alloc h (count_reported d) = Some e ->
  run h d = (Aborted e, world_alloc_failed d (terminate_output h e)).
Proof.
  intros H1 H2 H3 H4. unfold run.
  rewrite (exec_main_alloc_failed e) by assumption.
  now rewrite terminate_messages.
Qed.

Lemma run_listed :
  create_status d = VK_SUCCESS ->
  count_status d = VK_SUCCESS ->
  count_reported d <> 0 ->
  vector_alloc h (count_reported d) = None ->
  count_stored d <= count_reported d ->
  run h d = (Returned 0, world_listed d).
Proof. intros. unfold run. now rewrite exec_main_listed. Qed.

Lemma run_overrun :
  create_status d = VK_SUCCESS ->
  count_status d = VK_SUCCESS ->
  count_reported d <> 0 ->
  vector_alloc h (count_reported d) = None ->
  count_reported d < count_stored d ->
  run h d = (Undefined, world_overrun d).
Proof. intros. unfold run. now rewrite exec_main_overrun. Qed.

Lemma run_paths : Path h d.
Proof.
  destruct (Z.eq_dec (create_status d) VK_SUCCESS) as [Hc|Hc];
    [|apply PathCreateFailed; auto using run_create_failed].
  destruct (Z.eq_dec (count_status d) VK_SUCCESS) as [Hs|Hs];
    [|apply PathNoDevices; auto using run_no_devices].
  destruct (Z.eq_dec (count_reported d) 0) as [Hn|Hn];
    [apply PathNoDevices; auto using run_no_devices|].
  destruct (vector_alloc h (count_reported d)) as [e|] eqn:Ha;
    [apply (PathAllocFailed h d e); auto using run_alloc_failed|].
  destruct (Z_le_gt_dec (count_stored d) (count_reported d)) as [Hf|Hf].
  - apply PathListed; auto using run_listed.
  - assert (count_reported d < count_stored d) as Hover by lia.
    apply PathOverrun; auto using run_overrun.
Qed.

End Paths.
(** ** The log of calls *)

Lemma occurrences_app (p : Event -> bool) (l1 l2 : list Event) :
  occurrences p (l1 ++ l2) = (occurrences p l1 + occurrences p l2)%nat.
Proof. unfold occurrences. now rewrite filter_app, List.length_app. Qed.

Lemma never_occurrences (p : Event -> bool) (log : list Event) :
  never p log <-> occurrences p log = 0%nat.
Proof.
  unfold never, occurrences. induction log as [|e log IH]; cbn.
  - split; [reflexivity | intros _ e []].
  - destruct (p e) eqn:E; cbn.
    + split; [|discriminate]. intros H. specialize (H e (or_introl eq_refl)).
      congruence.
    + rewrite <- IH. split.
      * intros H x Hx. apply H. now right.
      * intros H x [<-|Hx]; auto.
Qed.

Lemma never_app (p : Event -> bool) (l1 l2 : list Event) :
  never p (l1 ++ l2) <-> never p l1 /\ never p l2.
Proof. rewrite !never_occurrences, occurrences_app. lia. Qed.

(** The version query and the loop make none of the calls that create,
    enumerate or destroy, and the query does not touch the vector. *)
Lemma loader_calls_inert (d : Driver) (p : Event -> bool) :
  p (EvGetInstanceProcAddr VK_NULL_HANDLE "vkEnumerateInstanceVersion") = false ->
  p EvEnumerateInstanceVersion = false ->
  occurrences p (loader_calls d) = 0%nat.
Proof.
  intros H1 H2. unfold loader_calls, occurrences.
  destruct (resolved_fn d); cbn; rewrite H1, ?H2; reflexivity.
Qed.

Lemma listing_calls_inert (p : Event -> bool) (hs : list VkPhysicalDevice) :
  (forall i b, p (EvVectorRead i b) = false) ->
  (forall h, p (EvGetPhysicalDeviceProperties h) = false) ->
  forall i, occurrences p (listing_calls i hs) = 0%nat.
Proof.
  intros H1 H2. unfold occurrences.
  induction hs as [|h hs IH]; intros i; cbn; [reflexivity|].
  rewrite H1, H2. apply IH.
Qed.

(** Every read of the vector in the loop is inside the vector. *)
Lemma listing_reads_in_range (hs : list VkPhysicalDevice) :
  forall i j b, In (EvVectorRead j b) (listing_calls i hs) -> b = true.
Proof.
  induction hs as [|h hs IH]; intros i j b; cbn; [tauto|].
  intros [E|[E|H]]; [congruence | discriminate | eauto].
Qed.

Lemma destroy_is_last (log : list Event) (e : Event) :
  never is_destroy log ->
  forall before after instance,
    (log ++ [e] = before ++ EvDestroyInstance instance :: after)%list ->
    after = [].
Proof.
  intros Hnever before after instance Heq.
  destruct after as [|a after] using rev_ind; [reflexivity|].
  exfalso.
  change (before ++ EvDestroyInstance instance :: after ++ [a])%list
    with (before ++ (EvDestroyInstance instance :: after) ++ [a])%list in Heq.
  rewrite app_assoc in Heq.
  apply app_inj_tail in Heq as [Hlog _].
  specialize (Hnever (EvDestroyInstance instance)).
  rewrite Hlog in Hnever.
  discriminate Hnever. apply in_elt.
Qed.

Lemma no_destroy_no_split (log : list Event) :
  never is_destroy log ->
  forall before after instance,
    log <> (before ++ EvDestroyInstance instance :: after)%list.
Proof.
  intros Hnever before after instance Heq.
  specialize (Hnever (EvDestroyInstance instance)).
  rewrite Heq in Hnever. discriminate Hnever. apply in_elt.
Qed.

(** ** The life of the context *)

Lemma lifecycle_app (l1 l2 : list Event) :
  forall s,
    lifecycle s (l1 ++ l2)
    = match lifecycle s l1 with
      | Some s' => lifecycle s' l2
      | None => None
      end.
Proof.
  induction l1 as [|e l1 IH]; intros s; cbn; [reflexivity|].
  destruct (lifecycle_step s e); [apply IH | reflexivity].
Qed.

Lemma lifecycle_loader_calls (d : Driver) (s : Lifecycle) :
  lifecycle s (loader_calls d) = Some s.
Proof. unfold loader_calls. destruct (resolved_fn d); reflexivity. Qed.

Lemma lifecycle_listing_calls (hs : list VkPhysicalDevice) :
  forall i, lifecycle ContextLive (listing_calls i hs) = Some ContextLive.
Proof. induction hs as [|h hs IH]; intros i; cbn; [reflexivity | apply IH]. Qed.

(** ** Counting calls on the paths *)

Ltac count_calls :=
  repeat rewrite occurrences_app;
  rewrite ?loader_calls_inert, ?listing_calls_inert by (intros; reflexivity);
  cbn.

Ltac on_paths h d :=
  destruct (run_paths h d)
    as [Hc Hrun|Hc Hn Hrun|e Hc Hs Hn Ha Hrun|Hc Hs Hn Ha Hf Hrun
        |Hc Hs Hn Ha Hf Hrun].

Section PathLogs.

Variable h : Host.
Variable d : Driver.

Lemma create_failed_log (p : Event -> bool) :
  p (EvGetInstanceProcAddr VK_NULL_HANDLE "vkEnumerateInstanceVersion") = false ->
  p EvEnumerateInstanceVersion = false ->
  p (create_event d) = false ->
  never p (calls (world_create_failed d)).
Proof.
  intros H1 H2 H3. apply never_occurrences. cbn [calls world_create_failed].
  rewrite occurrences_app, loader_calls_inert by assumption.
  unfold occurrences. cbn. now rewrite H3.
Qed.

Lemma no_devices_log (p : Event -> bool) :
  p (EvGetInstanceProcAddr VK_NULL_HANDLE "vkEnumerateInstanceVersion") = false ->
  p EvEnumerateInstanceVersion = false ->
  p (create_event d) = false ->
  p (count_event d) = false ->
  p (destroy_event d) = false ->
  never p (calls (world_no_devices d)).
Proof.
  intros H1 H2 H3 H4 H5. apply never_occurrences. cbn [calls world_no_devices].
  rewrite occurrences_app, loader_calls_inert by assumption.
  unfold occurrences. cbn. now rewrite H3, H4, H5.
Qed.

Lemma outcome_on (o : Outcome) (w : World) : run h d = (o, w) -> outcome h d = o.
Proof. unfold outcome. now intros ->. Qed.

Lemma exit_code_on (o : Outcome) (w : World) :
  run h d = (o, w) ->
  exit_code h d = match o with Returned code => Some code | _ => None end.
Proof. unfold exit_code, outcome. now intros ->. Qed.

Lemma final_on (o : Outcome) (w : World) : run h d = (o, w) -> final h d = w.
Proof. unfold final. now intros ->. Qed.

Lemma listing_decision_true :
  listing_decision d = true <->
  create_status d = VK_SUCCESS /\ count_status d = VK_SUCCESS
  /\ count_reported d <> 0.
Proof.
  unfold listing_decision.
  rewrite !andb_true_iff, negb_true_iff, !Z.eqb_eq, Z.eqb_neq. tauto.
Qed.

Lemma listing_decision_false :
  listing_decision d = false <->
  create_status d <> VK_SUCCESS
  \/ (create_status d = VK_SUCCESS
      /\ (count_status d <> VK_SUCCESS \/ count_reported d = 0)).
Proof.
  pose proof listing_decision_true as H.
  destruct (listing_decision d).
  - split; [discriminate|]. intros Hd. exfalso.
    destruct H as [H _]. specialize (H eq_refl). tauto.
  - split; [intros _|reflexivity].
    destruct (Z.eq_dec (create_status d) VK_SUCCESS);
      destruct (Z.eq_dec (count_status d) VK_SUCCESS);
      destruct (Z.eq_dec (count_reported d) 0); try tauto.
    destruct H as [_ H]. discriminate H. auto.
Qed.

(** The devices a run lists, path by path. *)
Lemma handles_listed_undecided :
  listing_decision d = false -> handles_listed h d = [].
Proof. intros H. unfold handles_listed. now rewrite H. Qed.

Lemma handles_listed_alloc_failed (e : Exception) :
  vector_alloc h (count_reported d) = Some e -> handles_listed h d = [].
Proof.
  intros H. unfold handles_listed. rewrite H. now destruct (listing_decision d).
Qed.

Lemma handles_listed_reached :
  listing_decision d = true ->
  vector_alloc h (count_reported d) = None ->
  handles_listed h d = handles_reached d.
Proof. intros H1 H2. unfold handles_listed. now rewrite H1, H2. Qed.

End PathLogs.

(** ** The device lines of an output *)

Lemma device_line_begins (p : VkPhysicalDeviceProperties) :
  begins_with "  - " (device_line p) = true.
Proof. reflexivity. Qed.

Lemma device_lines_kept (ps : list VkPhysicalDeviceProperties) :
  filter (begins_with "  - ") (map device_line ps) = map device_line ps.
Proof.
  induction ps as [|p ps IH]; [reflexivity|].
  cbn [map filter]. rewrite device_line_begins. now rewrite IH.
Qed.

Lemma device_listing_create_failed (d : Driver) :
  device_listing (world_create_failed d) = [].
Proof. reflexivity. Qed.

Lemma device_listing_no_devices (d : Driver) :
  device_listing (world_no_devices d) = [].
Proof. reflexivity. Qed.

Lemma device_listing_alloc_failed (d : Driver) (messages : list string) :
  device_listing (world_alloc_failed d messages) = [].
Proof. reflexivity. Qed.

Lemma device_listing_listed (d : Driver) :
  device_listing (world_listed d)
  = map device_line
        (map (on_vkGetPhysicalDeviceProperties d) (handles_reached d)).
Proof.
  unfold device_listing. cbn [stdout world_listed].
  change (filter (begins_with "  - ")
            (map device_line
                 (map (on_vkGetPhysicalDeviceProperties d) (handles_reached d))
             ++ [sanity_line])
          = map device_line
                (map (on_vkGetPhysicalDeviceProperties d) (handles_reached d))).
  rewrite filter_app, device_lines_kept. apply app_nil_r.
Qed.

Lemma device_listing_overrun (d : Driver) :
  device_listing (world_overrun d)
  = map device_line
        (map (on_vkGetPhysicalDeviceProperties d) (handles_reached d)).
Proof.
  unfold device_listing. cbn [stdout world_overrun].
  change (filter (begins_with "  - ")
            (map device_line
                 (map (on_vkGetPhysicalDeviceProperties d) (handles_reached d)))
          = map device_line
                (map (on_vkGetPhysicalDeviceProperties d) (handles_reached d))).
  apply device_lines_kept.
Qed.

(** On every run the device lines are the lines of the devices listed. *)
Lemma device_listing_final (h : Host) (d : Driver) :
  device_listing (final h d) = map device_line (properties_listed h d).
Proof.
  unfold properties_listed.
  on_paths h d; rewrite (final_on h d _ _ Hrun).
  - rewrite handles_listed_undecided
      by (apply listing_decision_false; tauto).
    apply device_listing_create_failed.
  - rewrite handles_listed_undecided
      by (apply listing_decision_false; tauto).
    apply device_listing_no_devices.
  - rewrite (handles_listed_alloc_failed h d e Ha).
    apply device_listing_alloc_failed.
  - rewrite handles_listed_reached
      by (try apply listing_decision_true; auto).
    apply device_listing_listed.
  - rewrite handles_listed_reached
      by (try apply listing_decision_true; auto).
    apply device_listing_overrun.
Qed.

(** ** Memory safety of the loop *)



(** * The statements of the specification *)




(** C2, where the program breaks it.  When the constructor of the device
    vector throws, [main] is left with the context created and live: the
    process is aborted and no call destroys the context. *)
Theorem context_left_live_when_vector_throws (h : Host) (d : Driver)
        (e : Exception) :
  create_status d = VK_SUCCESS ->
  count_status d = VK_SUCCESS ->
  count_reported d <> 0 ->
  vector_alloc h (count_reported d) = Some e ->
  outcome h d = Aborted e
  /\ occurrences is_create (calls (final h d)) = 1%nat
  /\ occurrences is_destroy (calls (final h d)) = 0%nat
  /\ lifecycle Uninitialized (calls (final h d)) = Some ContextLive.
Proof.
  intros Hc Hs Hn Ha.
  pose proof (run_alloc_failed h d e Hc Hs Hn Ha) as Hrun.
  rewrite (outcome_on h d _ _ Hrun), (final_on h d _ _ Hrun).
  cbn [calls world_alloc_failed].
  split; [reflexivity|]. split; [|split].
  - count_calls. reflexivity.
  - count_calls. reflexivity.
  - rewrite lifecycle_app, lifecycle_loader_calls.
    unfold create_event, count_event, alloc_event. cbn.
    rewrite Hc. reflexivity.
Qed.

Lemma context_left_live_when_vector_throws_witness :
  (create_status Samples.huge_count = VK_SUCCESS
   /\ count_status Samples.huge_count = VK_SUCCESS
   /\ count_reported Samples.huge_count = 4294967295
   /\ vector_alloc Samples.tight 4294967295 = Some BadAlloc)
  /\ outcome Samples.tight Samples.huge_count = Aborted BadAlloc
  /\ occurrences is_destroy (calls (final Samples.tight Samples.huge_count))
     = 0%nat.
Proof.
  split; [repeat split|].
  assert (count_reported Samples.huge_count <> 0) as Hn
      by (vm_compute; discriminate).
  destruct (context_left_live_when_vector_throws
              Samples.tight Samples.huge_count BadAlloc
              eq_refl eq_refl Hn eq_refl) as [Hout [_ [Hdestroy _]]].
  split; [exact Hout | exact Hdestroy].
Defined.

(** C3.  If the count query succeeds but counts no device, the program
    exits with code 1, the last call it makes destroys the context, and the
    diagnostic on standard error shows the status and the count 0. *)
Theorem zero_devices_is_failure (h : Host) (d : Driver) :
  create_status d = VK_SUCCESS ->
  count_status d = VK_SUCCESS ->
  count_reported d = 0 ->
  exit_code h d = Some 1
  /\ occurrences is_destroy (calls (final h d)) = 1%nat
  /\ (exists before,
        calls (final h d)
        = (before ++ [EvDestroyInstance (created_instance d)])%list)
  /\ stderr (final h d)
     = ["[vk] No physical devices found (res=0, count=0)" ++ newline].
Proof.
  intros Hc Hs Hn.
  pose proof (run_no_devices h d Hc (or_intror Hn)) as Hrun.
  rewrite (exit_code_on h d _ _ Hrun), (final_on h d _ _ Hrun).
  cbn [calls stderr world_no_devices].
  split; [reflexivity|]. split; [|split].
  - count_calls. reflexivity.
  - exists (loader_calls d ++ [create_event d; count_event d])%list.
    rewrite <- app_assoc. reflexivity.
  - rewrite Hs, Hn. reflexivity.
Qed.

Lemma zero_devices_is_failure_witness :
  (create_status Samples.no_gpu = VK_SUCCESS
   /\ count_status Samples.no_gpu = VK_SUCCESS
   /\ count_reported Samples.no_gpu = 0)
  /\ exit_code Samples.roomy Samples.no_gpu = Some 1
  /\ stderr (final Samples.roomy Samples.no_gpu)
     = ["[vk] No physical devices found (res=0, count=0)" ++ newline].
Proof.
  split; [repeat split|].
  pose proof (zero_devices_is_failure Samples.roomy Samples.no_gpu
                eq_refl eq_refl eq_refl) as [Hexit [_ [_ Herr]]].
  split; assumption.
Defined.

(** C4.  If [vkCreateInstance] returns a status other than success, the
    program writes that number to standard error, exits with code 1,
    enumerates no devices and destroys no context. *)
Theorem create_failure_reported (h : Host) (d : Driver) :
  create_status d <> VK_SUCCESS ->
  stderr (final h d)
  = ["[vk] vkCreateInstance failed: " ++ sdec (create_status d) ++ newline]
  /\ exit_code h d = Some 1
  /\ never is_enumerate (calls (final h d))
  /\ never is_destroy (calls (final h d)).
Proof.
  intros Hc.
  pose proof (run_create_failed h d Hc) as Hrun.
  rewrite (exit_code_on h d _ _ Hrun), (final_on h d _ _ Hrun).
  split; [|split; [reflexivity|split]].
  - cbn [stderr world_create_failed]. unfold create_failed_line.
    unfold create_status at 1. rewrite i32_idem. reflexivity.
  - apply create_failed_log; reflexivity.
  - apply create_failed_log; reflexivity.
Qed.

Lemma create_failure_reported_witness :
  create_status Samples.create_fails = -3
  /\ stderr (final Samples.roomy Samples.create_fails)
     = ["[vk] vkCreateInstance failed: -3" ++ newline]
  /\ exit_code Samples.roomy Samples.create_fails = Some 1.
Proof.
  split; [reflexivity|].
  assert (create_status Samples.create_fails <> VK_SUCCESS) as Hc
      by (vm_compute; discriminate).
  destruct (create_failure_reported Samples.roomy Samples.create_fails Hc)
    as [Herr [Hexit _]].
  split; [exact Herr | exact Hexit].
Defined.

(** C5.  If the count query returns a status other than success, the
    program exits with code 1 and the device vector is neither allocated
    nor read: the buffer-filling call is not made and no device is
    described. *)
Theorem count_failure_skips_buffer (h : Host) (d : Driver) :
  create_status d = VK_SUCCESS ->
  count_status d <> VK_SUCCESS ->
  exit_code h d = Some 1
  /\ never is_vector_access (calls (final h d))
  /\ never is_fill (calls (final h d))
  /\ never is_describe (calls (final h d)).
Proof.
  intros Hc Hs.
  pose proof (run_no_devices h d Hc (or_introl Hs)) as Hrun.
  rewrite (exit_code_on h d _ _ Hrun), (final_on h d _ _ Hrun).
  split; [reflexivity|].
  repeat split; apply no_devices_log; reflexivity.
Qed.

Lemma count_failure_skips_buffer_witness :
  (create_status Samples.count_fails = VK_SUCCESS
   /\ count_status Samples.count_fails = -1)
  /\ exit_code Samples.roomy Samples.count_fails = Some 1
  /\ never is_vector_access (calls (final Samples.roomy Samples.count_fails)).
Proof.
  split; [split; reflexivity|].
  assert (count_status Samples.count_fails <> VK_SUCCESS) as Hs
      by (vm_compute; discriminate).
  destruct (count_failure_skips_buffer Samples.roomy Samples.count_fails
                                       eq_refl Hs)
    as [Hexit [Hvec _]].
  split; [exact Hexit | exact Hvec].
Defined.

(** C6.  [queryLoaderVersion] always returns, and nothing in it can stop
    the run: it returns the baseline 1.0.0 when
    [vkEnumerateInstanceVersion] cannot be resolved, and otherwise the
    number that entry point stores, unchanged.  With a supported loader,
    one whose entry point, where present, stores a version of at least
    1.0.0, the result is at least the baseline in every case. *)
Theorem queryLoaderVersion_result (d : Driver) (w : World) :
  let v := fst (runState (queryLoaderVersion d) w) in
  (exists w', exec (lift (queryLoaderVersion d)) w = (inr v, w'))
  /\ (resolved_fn d = None ->
        v = VK_API_VERSION_1_0 /\ version_fields v = (1, 0, 0))
  /\ (forall fn, resolved_fn d = Some fn ->
                 v = u32 (snd (fn VK_API_VERSION_1_0)))
  /\ ((forall fn, resolved_fn d = Some fn ->
                  VK_API_VERSION_1_0 <= u32 (snd (fn VK_API_VERSION_1_0))) ->
      VK_API_VERSION_1_0 <= v
      /\ version_le (1, 0, 0) (version_fields v)).
Proof.
  cbv zeta. split; [|split; [|split]].
  - eexists. rewrite exec_lift. reflexivity.
  - rewrite run_queryLoaderVersion. cbn [fst].
    intros Hnone. unfold loader_version. rewrite Hnone.
    split; reflexivity.
  - rewrite run_queryLoaderVersion. cbn [fst].
    intros fn Hfn. unfold loader_version. rewrite Hfn. reflexivity.
  - rewrite run_queryLoaderVersion. cbn [fst].
    intros Hloader.
    assert (VK_API_VERSION_1_0 <= loader_version d) as Hle.
    { unfold loader_version.
      destruct (resolved_fn d) as [fn|] eqn:E; [apply Hloader; reflexivity|].
      apply Z.le_refl. }
    split; [exact Hle|].
    change (1, 0, 0) with (version_fields VK_API_VERSION_1_0).
    apply version_le_packed.
    rewrite (u32_small VK_API_VERSION_1_0) by (vm_compute; split; congruence).
    rewrite u32_small; [exact Hle|].
    unfold loader_version.
    destruct (resolved_fn d); [apply u32_range | vm_compute; split; congruence].
Qed.

Lemma queryLoaderVersion_result_witness :
  version_le (1, 0, 0)
    (version_fields
       (fst (runState (queryLoaderVersion Samples.two_gpus) initial_world)))
  /\ fst (runState (queryLoaderVersion Samples.create_fails) initial_world)
     = VK_API_VERSION_1_0.
Proof.
  split.
  - apply (queryLoaderVersion_result Samples.two_gpus initial_world).
    intros fn Hfn. vm_compute in Hfn. injection Hfn as <-.
    vm_compute. discriminate.
  - apply (queryLoaderVersion_result Samples.create_fails initial_world).
    reflexivity.
Defined.

(** ** The device lines *)

Lemma string_app_assoc (s t u : string) : (s ++ t) ++ u = s ++ t ++ u.
Proof. induction s as [|c s IH]; cbn; [reflexivity | now rewrite IH]. Qed.

Lemma list_ascii_of_string_app (s t : string) :
  list_ascii_of_string (s ++ t)
  = (list_ascii_of_string s ++ list_ascii_of_string t)%list.
Proof. induction s as [|c s IH]; cbn; [reflexivity | now rewrite IH]. Qed.

Lemma ends_with_4_hex_id_intro (front id : string) :
  String.length id = 4%nat ->
  all_chars is_hex_digit id = true ->
  ends_with_4_hex_id (front ++ " | deviceID 0x" ++ id ++ newline) = true.
Proof.
  intros Hlen Hhex.
  destruct id as [|a [|b [|c [|e [|x id]]]]]; try discriminate Hlen.
  cbn [all_chars] in Hhex.
  repeat (apply andb_true_iff in Hhex as [? Hhex]).
  unfold ends_with_4_hex_id.
  rewrite list_ascii_of_string_app, rev_app_distr.
  cbn. repeat (apply andb_true_iff; split); auto.
Qed.

Lemma device_id_text_hex (id : Z) :
  all_chars is_hex_digit (device_id_text id) = true.
Proof.
  unfold device_id_text, pad0.
  now rewrite all_chars_app, zeros_hex, hex_digits.
Qed.

Lemma device_id_text_length (id : Z) :
  String.length (device_id_text id)
  = Nat.max 4 (String.length (hex (u32 id))).
Proof. apply pad0_length. Qed.

Lemma device_line_4_hex_id (p : VkPhysicalDeviceProperties) :
  u32 (deviceID p) < 65536 ->
  String.length (device_id_text (deviceID p)) = 4%nat
  /\ ends_with_4_hex_id (device_line p) = true.
Proof.
  intros Hid.
  assert (String.length (device_id_text (deviceID p)) = 4%nat) as Hlen.
  { rewrite device_id_text_length.
    pose proof (hex_length_65536 (u32 (deviceID p))) as H.
    pose proof (u32_range (deviceID p)). lia. }
  split; [exact Hlen|].
  unfold device_line.
  repeat rewrite <- (string_app_assoc _ _
    (" | deviceID 0x" ++ device_id_text (deviceID p) ++ newline)).
  apply ends_with_4_hex_id_intro; [exact Hlen | apply device_id_text_hex].
Qed.

(** The number of hexadecimal digits bounds the number written. *)
Lemma of_hex_uint_acc_bound (u : Hexadecimal.uint) :
  forall acc,
    Z.pos (Pos.of_hex_uint_acc u acc)
    < (Z.pos acc + 1) * 16 ^ Z.of_nat (Hexadecimal.nb_digits u).
Proof.
  induction u as [|u IH|u IH|u IH|u IH|u IH|u IH|u IH|u IH
                  |u IH|u IH|u IH|u IH|u IH|u IH|u IH|u IH];
    intros acc; cbn [Pos.of_hex_uint_acc Hexadecimal.nb_digits];
    [cbn; lia | ..];
    rewrite Nat2Z.inj_succ, Z.pow_succ_r by lia;
    match goal with
    | |- Z.pos (Pos.of_hex_uint_acc _ ?a) < _ => specialize (IH a)
    end;
    assert (0 < 16 ^ Z.of_nat (Hexadecimal.nb_digits u))
      by (apply Z.pow_pos_nonneg; lia);
    nia.
Qed.

Lemma of_hex_uint_bound (u : Hexadecimal.uint) :
  Z.of_N (N.of_hex_uint u) < 16 ^ Z.of_nat (Hexadecimal.nb_digits u).
Proof.
  unfold N.of_hex_uint.
  induction u as [|u IH|u IH|u IH|u IH|u IH|u IH|u IH|u IH
                  |u IH|u IH|u IH|u IH|u IH|u IH|u IH|u IH];
    cbn [Pos.of_hex_uint Hexadecimal.nb_digits];
    [cbn; lia | ..];
    rewrite Nat2Z.inj_succ, Z.pow_succ_r by lia;
    assert (0 < 16 ^ Z.of_nat (Hexadecimal.nb_digits u))
      by (apply Z.pow_pos_nonneg; lia);
    [lia | ..];
    match goal with
    | |- Z.of_N (N.pos (Pos.of_hex_uint_acc _ ?a)) < _ =>
        pose proof (of_hex_uint_acc_bound u a)
    end;
    cbn [Z.of_N]; nia.
Qed.

Lemma string_of_hex_uint_length (u : Hexadecimal.uint) :
  String.length (HexadecimalString.NilEmpty.string_of_uint u)
  = Hexadecimal.nb_digits u.
Proof. induction u; cbn; congruence. Qed.

Lemma hex_value_bound (z : Z) :
  0 <= z -> z < 16 ^ Z.of_nat (String.length (hex z)).
Proof.
  intros Hz. unfold hex.
  pose proof (HexadecimalN.Unsigned.of_to (Z.to_N z)) as Hback.
  pose proof (of_hex_uint_bound (N.to_hex_uint (Z.to_N z))) as Hbound.
  rewrite Hback, Z2N.id in Hbound by exact Hz.
  unfold HexadecimalString.NilZero.string_of_uint.
  destruct (N.to_hex_uint (Z.to_N z)) eqn:E;
    try (rewrite string_of_hex_uint_length; exact Hbound).
  cbn in *. lia.
Qed.

Lemma hex_length_above_65536 (z : Z) :
  65536 <= z -> (4 < String.length (hex z))%nat.
Proof.
  intros Hz. pose proof (hex_value_bound z ltac:(lia)) as Hbound.
  destruct (Nat.le_gt_cases (String.length (hex z)) 4) as [Hle|Hgt];
    [|exact Hgt].
  exfalso.
  assert (16 ^ Z.of_nat (String.length (hex z)) <= 16 ^ 4)
    by (apply Z.pow_le_mono_r; lia).
  lia.
Qed.

(** C7, as the program has it.  When the count query succeeds with N > 0,
    the device vector can be constructed and the filling call stores the
    same count N, standard output holds the banner, the count, exactly N
    device lines and the closing line, and the exit code is 0.  A device
    line is
    [  - <name> | api <major.minor.patch> | driver 0x<hex> | deviceID 0x<hex>],
    the identifier in hexadecimal padded with zeros to at least four digits:
    exactly four when the identifier is below 0x10000, more than four
    otherwise. *)
Theorem devices_listed (h : Host) (d : Driver) (N : Z) :
  create_status d = VK_SUCCESS ->
  count_status d = VK_SUCCESS ->
  count_reported d = N ->
  0 < N ->
  vector_alloc h N = None ->
  count_stored d = N ->
  exit_code h d = Some 0
  /\ stdout (final h d)
     = banner_line (loader_version d) :: found_line N
       :: map device_line (properties_listed h d) ++ [sanity_line]
  /\ device_listing (final h d) = map device_line (properties_listed h d)
  /\ Z.of_nat (length (device_listing (final h d))) = N
  /\ (forall p, In p (properties_listed h d) ->
        device_line p
        = "  - " ++ deviceName p
          ++ " | api " ++ dec (VK_VERSION_MAJOR (apiVersion p))
          ++ "." ++ dec (VK_VERSION_MINOR (apiVersion p))
          ++ "." ++ dec (VK_VERSION_PATCH (apiVersion p))
          ++ " | driver 0x" ++ hex (u32 (driverVersion p))
          ++ " | deviceID 0x" ++ device_id_text (deviceID p) ++ newline
        /\ all_chars is_hex_digit (hex (u32 (driverVersion p))) = true
        /\ all_chars is_hex_digit (device_id_text (deviceID p)) = true
        /\ (4 <= String.length (device_id_text (deviceID p)))%nat
        /\ (u32 (deviceID p) < 65536 ->
              String.length (device_id_text (deviceID p)) = 4%nat
              /\ ends_with_4_hex_id (device_line p) = true)
        /\ (65536 <= u32 (deviceID p) ->
              (4 < String.length (device_id_text (deviceID p)))%nat)).
Proof.
  intros Hc Hs HN Hpos Ha Hst.
  assert (count_reported d <> 0) as Hn by lia.
  rewrite <- HN in Ha.
  assert (count_stored d <= count_reported d) as Hf by lia.
  pose proof (run_listed h d Hc Hs Hn Ha Hf) as Hrun.
  rewrite device_listing_final.
  rewrite (exit_code_on h d _ _ Hrun), (final_on h d _ _ Hrun).
  assert (handles_listed h d = handles_reached d) as Hlisted
      by (apply handles_listed_reached;
          [apply listing_decision_true; auto | exact Ha]).
  split; [reflexivity|]. split; [|split; [reflexivity|split]].
  - cbn [stdout world_listed]. unfold properties_listed.
    rewrite Hlisted, Hst. reflexivity.
  - unfold properties_listed. rewrite !length_map, Hlisted.
    rewrite handles_reached_fits by exact Hf. exact Hst.
  - intros p _. split; [|split; [|split; [|split; [|split]]]].
    + unfold device_line, version_text,
        VK_VERSION_MAJOR, VK_VERSION_MINOR, VK_VERSION_PATCH.
      rewrite !string_app_assoc. reflexivity.
    + apply hex_digits.
    + apply device_id_text_hex.
    + rewrite device_id_text_length. lia.
    + apply device_line_4_hex_id.
    + intros Hid. rewrite device_id_text_length.
      pose proof (hex_length_above_65536 _ Hid). lia.
Qed.

Lemma devices_listed_witness :
  (create_status Samples.two_gpus = VK_SUCCESS
   /\ count_status Samples.two_gpus = VK_SUCCESS
   /\ count_reported Samples.two_gpus = 2
   /\ count_stored Samples.two_gpus = 2)
  /\ exit_code Samples.roomy Samples.two_gpus = Some 0
  /\ Z.of_nat (length (device_listing (final Samples.roomy Samples.two_gpus)))
     = 2.
Proof.
  split; [repeat split|].
  destruct (devices_listed Samples.roomy Samples.two_gpus 2
              eq_refl eq_refl eq_refl eq_refl eq_refl eq_refl)
    as [Hexit [_ [_ [Hlines _]]]].
  split; [exact Hexit | exact Hlines].
Defined.

(** C7, as stated, fails, in three ways.  A device whose identifier is
    0x6040001 gets a line whose identifier has seven hexadecimal digits,
    not four.  When the count query reports three devices and the filling
    call stores 1, there is one device line, not three.  When the count
    query reports 2^32 - 1 devices and the host has no room for the vector,
    there is no device line and no exit code 0. *)
Lemma device_listing_not_as_stated :
  (exit_code Samples.roomy Samples.two_gpus = Some 0
   /\ nth 1 (device_listing (final Samples.roomy Samples.two_gpus)) ""
      = "  - GPU B | api 1.1.0 | driver 0x1 | deviceID 0x6040001" ++ newline
   /\ ends_with_4_hex_id
        (nth 1 (device_listing (final Samples.roomy Samples.two_gpus)) "")
      = false
   /\ String.length
        (device_id_text (deviceID (Samples.props_of 102))) = 7%nat)
  /\ (count_status Samples.one_of_three = VK_SUCCESS
      /\ count_reported Samples.one_of_three = 3
      /\ exit_code Samples.roomy Samples.one_of_three = Some 0
      /\ length (device_listing (final Samples.roomy Samples.one_of_three))
         = 1%nat)
  /\ (count_status Samples.huge_count = VK_SUCCESS
      /\ count_reported Samples.huge_count = 4294967295
      /\ outcome Samples.tight Samples.huge_count = Aborted BadAlloc
      /\ device_listing (final Samples.tight Samples.huge_count) = []).
Proof. vm_compute. repeat split. Qed.

(** C8.  Two runs on one host whose drivers give the same loader version,
    the same statuses, the same counts and the same device properties, the
    devices possibly in another order, end the same way with the same exit
    code, and their device listings are the same up to the order of the lines; with
    the devices in the same order, all of standard output is the same. *)
Theorem listing_up_to_order (h : Host) (d1 d2 : Driver) :
  loader_version d1 = loader_version d2 ->
  create_status d1 = create_status d2 ->
  count_status d1 = count_status d2 ->
  count_reported d1 = count_reported d2 ->
  count_stored d1 = count_stored d2 ->
  Permutation (properties_listed h d1) (properties_listed h d2) ->
  outcome h d1 = outcome h d2
  /\ exit_code h d1 = exit_code h d2
  /\ Permutation (device_listing (final h d1)) (device_listing (final h d2))
  /\ stderr (final h d1) = stderr (final h d2)
  /\ (properties_listed h d1 = properties_listed h d2 ->
        stdout (final h d1) = stdout (final h d2)).
Proof.
  intros Ev Ec Es En Est Hperm.
  assert (outcome h d1 = outcome h d2) as Hout.
  { on_paths h d1.
    - rewrite (outcome_on h d1 _ _ Hrun),
        (outcome_on h d2 _ _ (run_create_failed h d2 ltac:(congruence))).
      reflexivity.
    - rewrite (outcome_on h d1 _ _ Hrun),
        (outcome_on h d2 _ _
           (run_no_devices h d2 ltac:(congruence)
              ltac:(rewrite <- Es, <- En; exact Hn))).
      reflexivity.
    - rewrite (outcome_on h d1 _ _ Hrun),
        (outcome_on h d2 _ _
           (run_alloc_failed h d2 e ltac:(congruence) ltac:(congruence)
              ltac:(congruence) ltac:(congruence))).
      reflexivity.
    - rewrite (outcome_on h d1 _ _ Hrun),
        (outcome_on h d2 _ _
           (run_listed h d2 ltac:(congruence) ltac:(congruence)
              ltac:(congruence) ltac:(congruence) ltac:(lia))).
      reflexivity.
    - rewrite (outcome_on h d1 _ _ Hrun),
        (outcome_on h d2 _ _
           (run_overrun h d2 ltac:(congruence) ltac:(congruence)
              ltac:(congruence) ltac:(congruence) ltac:(lia))).
      reflexivity. }
  split; [exact Hout|].
  split; [unfold exit_code; now rewrite Hout|].
  split; [rewrite !device_listing_final; apply Permutation_map; exact Hperm|].
  - on_paths h d1.
    + pose proof (run_create_failed h d2 ltac:(congruence)) as Hrun2.
      rewrite (final_on h d1 _ _ Hrun), (final_on h d2 _ _ Hrun2).
      cbn [stdout stderr world_create_failed]. rewrite Ev, Ec. auto.
    + pose proof (run_no_devices h d2 ltac:(congruence)
                    ltac:(rewrite <- Es, <- En; exact Hn)) as Hrun2.
      rewrite (final_on h d1 _ _ Hrun), (final_on h d2 _ _ Hrun2).
      cbn [stdout stderr world_no_devices]. rewrite Ev, Es, En. auto.
    + pose proof (run_alloc_failed h d2 e ltac:(congruence) ltac:(congruence)
                    ltac:(congruence) ltac:(congruence)) as Hrun2.
      rewrite (final_on h d1 _ _ Hrun), (final_on h d2 _ _ Hrun2).
      cbn [stdout stderr world_alloc_failed]. rewrite Ev. auto.
    + pose proof (run_listed h d2 ltac:(congruence) ltac:(congruence)
                    ltac:(congruence) ltac:(congruence) ltac:(lia)) as Hrun2.
      rewrite (final_on h d1 _ _ Hrun), (final_on h d2 _ _ Hrun2).
      cbn [stdout stderr world_listed].
      split; [reflexivity|]. intros Hsame.
      assert (listing_decision d1 = true) as D1
          by (apply listing_decision_true; auto).
      assert (listing_decision d2 = true) as D2
          by (apply listing_decision_true; repeat split; congruence).
      assert (vector_alloc h (count_reported d2) = None) as A2 by congruence.
      unfold properties_listed in Hsame.
      rewrite (handles_listed_reached h d1 D1 Ha),
        (handles_listed_reached h d2 D2 A2) in Hsame.
      now rewrite Ev, Est, Hsame.
    + pose proof (run_overrun h d2 ltac:(congruence) ltac:(congruence)
                    ltac:(congruence) ltac:(congruence) ltac:(lia)) as Hrun2.
      rewrite (final_on h d1 _ _ Hrun), (final_on h d2 _ _ Hrun2).
      cbn [stdout stderr world_overrun].
      split; [reflexivity|]. intros Hsame.
      assert (listing_decision d1 = true) as D1
          by (apply listing_decision_true; auto).
      assert (listing_decision d2 = true) as D2
          by (apply listing_decision_true; repeat split; congruence).
      assert (vector_alloc h (count_reported d2) = None) as A2 by congruence.
      unfold properties_listed in Hsame.
      rewrite (handles_listed_reached h d1 D1 Ha),
        (handles_listed_reached h d2 D2 A2) in Hsame.
      now rewrite Ev, Est, Hsame.
Qed.

Lemma listing_up_to_order_witness :
  Permutation (properties_listed Samples.roomy Samples.two_gpus)
              (properties_listed Samples.roomy Samples.two_gpus_swapped)
  /\ exit_code Samples.roomy Samples.two_gpus
     = exit_code Samples.roomy Samples.two_gpus_swapped
  /\ Permutation
       (device_listing (final Samples.roomy Samples.two_gpus))
       (device_listing (final Samples.roomy Samples.two_gpus_swapped)).
Proof.
  assert (Permutation (properties_listed Samples.roomy Samples.two_gpus)
                      (properties_listed Samples.roomy Samples.two_gpus_swapped))
    as Hperm by apply perm_swap.
  split; [exact Hperm|].
  destruct (listing_up_to_order Samples.roomy
              Samples.two_gpus Samples.two_gpus_swapped
              eq_refl eq_refl eq_refl eq_refl eq_refl Hperm)
    as [_ [Hexit [Hlines _]]].
  split; [exact Hexit | exact Hlines].
Defined.

(** C9.  For a 32-bit [v], [ApiVersionToStr v] leaves ["M.m.p"] in the
    static buffer, with M = v >> 22, m = (v >> 12) & 0x3FF and
    p = v & 0xFFF, and returns the address of that buffer.  A later call
    overwrites the text an earlier pointer shows.  In [main] every pointer
    is printed before the next call, so the banner shows the loader version
    and the line of each device the version of that device. *)
Theorem version_text_per_call :
  (forall v w, 0 <= v < 2 ^ 32 ->
     let r := runState (ApiVersionToStr v) w in
     fst r = PtrStaticBuf
     /\ deref (snd r) (fst r)
        = dec (Z.shiftr v 22) ++ "." ++ dec (Z.land (Z.shiftr v 12) 1023)
          ++ "." ++ dec (Z.land v 4095))
  /\ (forall v1 v2 w,
        let r1 := runState (ApiVersionToStr v1) w in
        let r2 := runState (ApiVersionToStr v2) (snd r1) in
        fst r2 = fst r1 /\ deref (snd r2) (fst r1) = version_text v2)
  /\ (forall h d,
        nth_error (stdout (final h d)) 0
        = Some ("[vk] Loader supports: Vulkan "
                ++ version_text (loader_version d) ++ newline)
        /\ (forall i p,
              listing_decision d = true ->
              nth_error (properties_listed h d) i = Some p ->
              nth_error (device_listing (final h d)) i
              = Some ("  - " ++ deviceName p
                      ++ " | api " ++ version_text (apiVersion p)
                      ++ " | driver 0x" ++ hex (u32 (driverVersion p))
                      ++ " | deviceID 0x" ++ device_id_text (deviceID p)
                      ++ newline))
        /\ (forall i line,
              nth_error (device_listing (final h d)) i = Some line ->
              exists p,
                nth_error (properties_listed h d) i = Some p
                /\ line = "  - " ++ deviceName p
                          ++ " | api " ++ version_text (apiVersion p)
                          ++ " | driver 0x" ++ hex (u32 (driverVersion p))
                          ++ " | deviceID 0x" ++ device_id_text (deviceID p)
                          ++ newline)).
Proof.
  split; [|split].
  - intros v w Hv. cbv zeta. rewrite run_ApiVersionToStr.
    split; [reflexivity|].
    cbn [fst snd deref static_buf set_static_buf].
    unfold version_text. rewrite (u32_small v Hv). reflexivity.
  - intros v1 v2 w. cbv zeta. rewrite !run_ApiVersionToStr.
    split; reflexivity.
  - intros h d. split; [|split].
    + on_paths h d; rewrite (final_on h d _ _ Hrun); reflexivity.
    + intros i p _ Hp.
      rewrite device_listing_final, nth_error_map, Hp. reflexivity.
    + intros i line Hline.
      rewrite device_listing_final, nth_error_map in Hline.
      destruct (nth_error (properties_listed h d) i) as [p|];
        [|discriminate].
      exists p. split; [reflexivity|].
      injection Hline as <-. reflexivity.
Qed.

Lemma version_text_per_call_witness :
  0 <= VK_API_VERSION_1_1 < 2 ^ 32
  /\ deref (snd (runState (ApiVersionToStr VK_API_VERSION_1_1) initial_world))
           PtrStaticBuf
     = "1.1.0".
Proof.
  assert (0 <= VK_API_VERSION_1_1 < 2 ^ 32) as Hv
      by (vm_compute; split; congruence).
  split; [exact Hv|].
  exact (proj2 (proj1 version_text_per_call VK_API_VERSION_1_1
                      initial_world Hv)).
Defined.

Lemma exit_code_formula (h : Host) (d : Driver) :
  exit_code h d
  = if listing_decision d then
      match vector_alloc h (count_reported d) with
      | Some _ => None
      | None => if count_stored d <=? count_reported d then Some 0 else None
      end
    else Some 1.
Proof.
  on_paths h d; rewrite (exit_code_on h d _ _ Hrun).
  - rewrite (proj2 (listing_decision_false d)); tauto.
  - rewrite (proj2 (listing_decision_false d)); tauto.
  - rewrite (proj2 (listing_decision_true d)), Ha; tauto.
  - rewrite (proj2 (listing_decision_true d)), Ha by tauto.
    destruct (Z.leb_spec (count_stored d) (count_reported d));
      [reflexivity | lia].
  - rewrite (proj2 (listing_decision_true d)), Ha by tauto.
    destruct (Z.leb_spec (count_stored d) (count_reported d));
      [lia | reflexivity].
Qed.

Lemma stdout_without_listing (h : Host) (d : Driver) :
  listing_decision d = false ->
  stdout (final h d) = [banner_line (loader_version d)].
Proof.
  intros Hdec. apply listing_decision_false in Hdec.
  on_paths h d; rewrite (final_on h d _ _ Hrun); try reflexivity; tauto.
Qed.

(** C10, as the program has it.  The status of the buffer-filling call is
    not looked at: whatever it is, also a failure, the run ends the same
    way with the same outputs.  Between drivers whose filling calls store a
    count that fits the vector, the exit code and whether the program goes
    on to list the devices are decided by the creation status and by the
    status and count of the count query.  When the listing is decided, the
    vector can be constructed and the stored count fits, the program prints
    one line for each device of the stored count, which is the count of the
    count query when the filling call stores the same, and exits with 0. *)
Theorem second_status_discarded (h : Host) (d : Driver) (s : VkResult) :
  let d' := with_fill_status s d in
  (outcome h d' = outcome h d
   /\ exit_code h d' = exit_code h d
   /\ stdout (final h d') = stdout (final h d)
   /\ stderr (final h d') = stderr (final h d))
  /\ (forall d2,
        create_status d2 = create_status d ->
        count_status d2 = count_status d ->
        count_reported d2 = count_reported d ->
        count_stored d <= count_reported d ->
        count_stored d2 <= count_reported d2 ->
        exit_code h d2 = exit_code h d
        /\ listing_decision d2 = listing_decision d)
  /\ (listing_decision d = false ->
        exit_code h d = Some 1
        /\ stdout (final h d) = [banner_line (loader_version d)])
  /\ (listing_decision d = true ->
      vector_alloc h (count_reported d) = None ->
      count_stored d <= count_reported d ->
        fill_status d' = i32 s
        /\ exit_code h d' = Some 0
        /\ stdout (final h d')
           = banner_line (loader_version d)
             :: found_line (count_stored d)
             :: map device_line (properties_listed h d) ++ [sanity_line]
        /\ device_listing (final h d') = map device_line (properties_listed h d)
        /\ Z.of_nat (length (device_listing (final h d'))) = count_stored d
        /\ (count_stored d = count_reported d ->
              Z.of_nat (length (device_listing (final h d')))
              = count_reported d)).
Proof.
  cbv zeta.
  assert (outcome h (with_fill_status s d) = outcome h d
          /\ stdout (final h (with_fill_status s d)) = stdout (final h d)
          /\ stderr (final h (with_fill_status s d)) = stderr (final h d))
    as [Hout [Hso Hse]].
  { on_paths h d.
    - pose proof (run_create_failed h (with_fill_status s d) Hc) as Hrun'.
      rewrite (outcome_on h d _ _ Hrun), (final_on h d _ _ Hrun),
        (outcome_on h _ _ _ Hrun'), (final_on h _ _ _ Hrun').
      repeat split.
    - pose proof (run_no_devices h (with_fill_status s d) Hc Hn) as Hrun'.
      rewrite (outcome_on h d _ _ Hrun), (final_on h d _ _ Hrun),
        (outcome_on h _ _ _ Hrun'), (final_on h _ _ _ Hrun').
      repeat split.
    - pose proof (run_alloc_failed h (with_fill_status s d) e Hc Hs Hn Ha)
        as Hrun'.
      rewrite (outcome_on h d _ _ Hrun), (final_on h d _ _ Hrun),
        (outcome_on h _ _ _ Hrun'), (final_on h _ _ _ Hrun').
      repeat split.
    - pose proof (run_listed h (with_fill_status s d) Hc Hs Hn Ha Hf) as Hrun'.
      rewrite (outcome_on h d _ _ Hrun), (final_on h d _ _ Hrun),
        (outcome_on h _ _ _ Hrun'), (final_on h _ _ _ Hrun').
      repeat split.
    - pose proof (run_overrun h (with_fill_status s d) Hc Hs Hn Ha Hf)
        as Hrun'.
      rewrite (outcome_on h d _ _ Hrun), (final_on h d _ _ Hrun),
        (outcome_on h _ _ _ Hrun'), (final_on h _ _ _ Hrun').
      repeat split. }
  assert (exit_code h (with_fill_status s d) = exit_code h d) as Hexit
      by (unfold exit_code; now rewrite Hout).
  split; [auto|]. split; [|split].
  - intros d2 H1 H2 H3 Hf Hf2.
    assert (listing_decision d2 = listing_decision d) as Hdec
        by (unfold listing_decision; now rewrite H1, H2, H3).
    split; [|exact Hdec].
    rewrite !exit_code_formula, Hdec, H3.
    destruct (Z.leb_spec (count_stored d) (count_reported d)); [|lia].
    destruct (Z.leb_spec (count_stored d2) (count_reported d)); [|lia].
    reflexivity.
  - intros Hdec. split; [|apply stdout_without_listing; exact Hdec].
    rewrite exit_code_formula, Hdec. reflexivity.
  - intros Hdec Ha Hf.
    pose proof Hdec as Hdec'. apply listing_decision_true in Hdec'
      as [Hc [Hs Hn]].
    pose proof (run_listed h d Hc Hs Hn Ha Hf) as Hrun.
    assert (properties_listed h d
            = map (on_vkGetPhysicalDeviceProperties d) (handles_reached d))
      as Hprops
      by (unfold properties_listed; now rewrite handles_listed_reached).
    split; [reflexivity|].
    rewrite Hexit, Hso, (exit_code_on h d _ _ Hrun).
    split; [reflexivity|].
    split; [rewrite (final_on h d _ _ Hrun), Hprops; reflexivity|].
    assert (device_listing (final h (with_fill_status s d))
            = map device_line (properties_listed h d)) as Hlines.
    { rewrite device_listing_final. reflexivity. }
    split; [exact Hlines|].
    assert (Z.of_nat (length (device_listing (final h (with_fill_status s d))))
            = count_stored d) as Hlen.
    { rewrite Hlines, Hprops, !length_map.
      apply handles_reached_fits. exact Hf. }
    split; [exact Hlen | congruence].
Qed.

Lemma second_status_discarded_witness :
  (listing_decision Samples.two_gpus = true
   /\ vector_alloc Samples.roomy (count_reported Samples.two_gpus) = None
   /\ count_stored Samples.two_gpus <= count_reported Samples.two_gpus)
  /\ fill_status (with_fill_status (-3) Samples.two_gpus) = -3
  /\ exit_code Samples.roomy (with_fill_status (-3) Samples.two_gpus) = Some 0
  /\ Z.of_nat
       (length (device_listing
                  (final Samples.roomy (with_fill_status (-3) Samples.two_gpus))))
     = 2.
Proof.
  assert (count_stored Samples.two_gpus <= count_reported Samples.two_gpus)
    as Hf by (vm_compute; discriminate).
  split; [repeat split; exact Hf|].
  destruct (second_status_discarded Samples.roomy Samples.two_gpus (-3))
    as [_ [_ [_ Hlisted]]].
  destruct (Hlisted eq_refl eq_refl Hf) as [Hfill [Hexit [_ [_ [Hlen _]]]]].
  split; [exact Hfill|]. split; [exact Hexit | exact Hlen].
Defined.

(** C10, as stated, fails, in three ways.  With a successful count query
    that reports 2^32 - 1 devices, a host without room for the vector aborts
    the process: no line, no exit code 0.  Two drivers that agree on the
    creation and on the count query, which reports 2, end differently when
    one of them stores 3 in the filling call.  When the count query reports
    three devices and the filling call fails and stores 1, the program
    prints one device line, not three. *)
Lemma first_call_does_not_decide :
  (listing_decision Samples.huge_count = true
   /\ outcome Samples.tight Samples.huge_count = Aborted BadAlloc
   /\ exit_code Samples.tight Samples.huge_count <> Some 0
   /\ device_listing (final Samples.tight Samples.huge_count) = [])
  /\ (create_status Samples.two_gpus = create_status Samples.three_in_two
      /\ count_status Samples.two_gpus = count_status Samples.three_in_two
      /\ count_reported Samples.two_gpus = count_reported Samples.three_in_two
      /\ exit_code Samples.roomy Samples.two_gpus = Some 0
      /\ exit_code Samples.roomy Samples.three_in_two = None
      /\ outcome Samples.roomy Samples.three_in_two = Undefined)
  /\ (count_status Samples.one_of_three = VK_SUCCESS
      /\ count_reported Samples.one_of_three = 3
      /\ fill_status Samples.one_of_three = -4
      /\ exit_code Samples.roomy Samples.one_of_three = Some 0
      /\ length (device_listing (final Samples.roomy Samples.one_of_three))
         = 1%nat).
Proof. vm_compute. repeat split; discriminate. Qed.
(** * Further properties of the program *)

(** ** The text of a version *)

Lemma dec_digits_uint (u : Decimal.uint) :
  all_chars is_dec_digit (DecimalString.NilEmpty.string_of_uint u) = true.
Proof. induction u; cbn; auto. Qed.

Lemma dec_digits (z : Z) : all_chars is_dec_digit (dec z) = true.
Proof.
  unfold dec, DecimalString.NilZero.string_of_uint.
  destruct (N.to_uint (Z.to_N z)) eqn:E; try reflexivity;
    rewrite <- E; apply dec_digits_uint.
Qed.

Lemma dec_length_pos (z : Z) : (1 <= String.length (dec z))%nat.
Proof.
  unfold dec, DecimalString.NilZero.string_of_uint.
  destruct (N.to_uint (Z.to_N z)); cbn; lia.
Qed.

Lemma dec_inj (a b : Z) : 0 <= a -> 0 <= b -> dec a = dec b -> a = b.
Proof.
  intros Ha Hb H.
  pose proof (dec_read a Ha) as Ra. pose proof (dec_read b Hb) as Rb.
  rewrite H in Ra. congruence.
Qed.

(** Two texts of digits followed by a dot agree only if the digits agree. *)
Lemma dotted_split (s1 : string) :
  forall s2 t1 t2,
    all_chars is_dec_digit s1 = true ->
    all_chars is_dec_digit s2 = true ->
    s1 ++ "." ++ t1 = s2 ++ "." ++ t2 ->
    s1 = s2 /\ t1 = t2.
Proof.
  induction s1 as [|c s1 IH]; intros [|c2 s2] t1 t2 H1 H2 Heq;
    cbn in H1, H2, Heq.
  - injection Heq as ->. auto.
  - injection Heq as <- _.
    apply andb_true_iff in H2 as [H2 _]. discriminate H2.
  - injection Heq as -> _.
    apply andb_true_iff in H1 as [H1 _]. discriminate H1.
  - injection Heq as -> Heq.
    apply andb_true_iff in H1 as [_ H1].
    apply andb_true_iff in H2 as [_ H2].
    destruct (IH _ _ _ H1 H2 Heq) as [-> ->]. auto.
Qed.

Lemma version_text_inj (a b : Z) :
  version_text a = version_text b -> u32 a = u32 b.
Proof.
  intros H. unfold version_text in H.
  apply dotted_split in H as [HM H]; try apply dec_digits.
  apply dotted_split in H as [Hm Hp]; try apply dec_digits.
  pose proof (VK_VERSION_MAJOR_range a) as Ra1.
  pose proof (VK_VERSION_MINOR_range a) as Ra2.
  pose proof (VK_VERSION_PATCH_range a) as Ra3.
  pose proof (VK_VERSION_MAJOR_range b) as Rb1.
  pose proof (VK_VERSION_MINOR_range b) as Rb2.
  pose proof (VK_VERSION_PATCH_range b) as Rb3.
  rewrite (version_unpack a), (version_unpack b).
  unfold VK_VERSION_MAJOR, VK_VERSION_MINOR, VK_VERSION_PATCH in *.
  apply dec_inj in HM; [|lia|lia].
  apply dec_inj in Hm; [|lia|lia].
  apply dec_inj in Hp; [|lia|lia].
  now rewrite HM, Hm, Hp.
Qed.

(** X1.  [ApiVersionToStr] never cuts its text short: for every argument the
    static buffer ends up with all of what ["%u.%u.%u"] produces, between 5
    and 14 characters, well inside the 64 bytes; and the call writes nothing
    to the output streams and makes no call of its own. *)
Theorem ApiVersionToStr_fits_buffer (v : Z) (w : World) :
  let w' := snd (runState (ApiVersionToStr v) w) in
  static_buf w'
  = format w Literal "%u.%u.%u"
           [ArgUInt (VK_VERSION_MAJOR (u32 v));
            ArgUInt (VK_VERSION_MINOR (u32 v));
            ArgUInt (VK_VERSION_PATCH (u32 v))]
  /\ (5 <= String.length (static_buf w') <= 14)%nat
  /\ (String.length (static_buf w') < 64)%nat
  /\ stdout w' = stdout w /\ stderr w' = stderr w /\ calls w' = calls w.
Proof.
  cbv zeta. rewrite run_ApiVersionToStr.
  cbn [snd static_buf stdout stderr calls set_static_buf].
  assert (5 <= String.length (version_text v) <= 14)%nat as Hlen.
  { split; [|apply version_text_length].
    unfold version_text. rewrite !string_length_app.
    pose proof (dec_length_pos (Z.shiftr (u32 v) 22)).
    pose proof (dec_length_pos (Z.land (Z.shiftr (u32 v) 12) 1023)).
    pose proof (dec_length_pos (Z.land (u32 v) 4095)).
    cbn [String.length]. lia. }
  split; [|split; [exact Hlen|split; [lia|auto]]].
  rewrite format_version.
  pose proof (VK_VERSION_MAJOR_range (u32 v)) as HM.
  pose proof (VK_VERSION_MINOR_range (u32 v)) as Hm.
  pose proof (VK_VERSION_PATCH_range (u32 v)) as Hp.
  rewrite (u32_small (VK_VERSION_MAJOR (u32 v))),
    (u32_small (VK_VERSION_MINOR (u32 v))),
    (u32_small (VK_VERSION_PATCH (u32 v))) by lia.
  unfold VK_VERSION_MAJOR, VK_VERSION_MINOR, VK_VERSION_PATCH.
  rewrite u32_idem. reflexivity.
Qed.

(** X2.  The text identifies the version: if two calls of [ApiVersionToStr]
    leave the same text in the buffer, their arguments are the same 32-bit
    number. *)
Theorem ApiVersionToStr_injective (a b : Z) (wa wb : World) :
  static_buf (snd (runState (ApiVersionToStr a) wa))
  = static_buf (snd (runState (ApiVersionToStr b) wb)) ->
  u32 a = u32 b.
Proof.
  rewrite !run_ApiVersionToStr. cbn [snd static_buf set_static_buf].
  apply version_text_inj.
Qed.

Lemma ApiVersionToStr_injective_witness :
  static_buf (snd (runState (ApiVersionToStr VK_API_VERSION_1_1) initial_world))
  = static_buf
      (snd (runState (ApiVersionToStr (VK_API_VERSION_1_1 + 2 ^ 32))
                     (add_stdout "x" initial_world)))
  /\ u32 VK_API_VERSION_1_1 = u32 (VK_API_VERSION_1_1 + 2 ^ 32).
Proof.
  assert (static_buf
            (snd (runState (ApiVersionToStr VK_API_VERSION_1_1) initial_world))
          = static_buf
              (snd (runState (ApiVersionToStr (VK_API_VERSION_1_1 + 2 ^ 32))
                             (add_stdout "x" initial_world)))) as H
      by (vm_compute; reflexivity).
  split; [exact H|].
  exact (ApiVersionToStr_injective _ _ _ _ H).
Defined.

(** ** The vector of devices *)



Lemma described_listing (hs : list VkPhysicalDevice) :
  forall i, described (listing_calls i hs) = hs.
Proof.
  induction hs as [|h hs IH]; intros i; cbn; [reflexivity|].
  f_equal. apply IH.
Qed.

Lemma loader_calls_flat_map {B : Type} (d : Driver) (f : Event -> list B) :
  f (EvGetInstanceProcAddr VK_NULL_HANDLE "vkEnumerateInstanceVersion") = [] ->
  f EvEnumerateInstanceVersion = [] ->
  flat_map f (loader_calls d) = [].
Proof.
  intros H1 H2. unfold loader_calls.
  destruct (resolved_fn d); cbn; rewrite H1, ?H2; reflexivity.
Qed.

Section PathLogs2.

Variable d : Driver.

Lemma flat_map_create_failed {B : Type} (f : Event -> list B) :
  f (EvGetInstanceProcAddr VK_NULL_HANDLE "vkEnumerateInstanceVersion") = [] ->
  f EvEnumerateInstanceVersion = [] ->
  f (create_event d) = [] ->
  flat_map f (calls (world_create_failed d)) = [].
Proof.
  intros H1 H2 H3. cbn [calls world_create_failed].
  rewrite flat_map_app, loader_calls_flat_map by assumption.
  cbn. now rewrite H3.
Qed.

Lemma flat_map_no_devices {B : Type} (f : Event -> list B) :
  f (EvGetInstanceProcAddr VK_NULL_HANDLE "vkEnumerateInstanceVersion") = [] ->
  f EvEnumerateInstanceVersion = [] ->
  f (create_event d) = [] ->
  f (count_event d) = [] ->
  f (destroy_event d) = [] ->
  flat_map f (calls (world_no_devices d)) = [].
Proof.
  intros H1 H2 H3 H4 H5. cbn [calls world_no_devices].
  rewrite flat_map_app, loader_calls_flat_map by assumption.
  cbn. now rewrite H3, H4, H5.
Qed.

(** What a projection of the log finds on the paths that reach the
    constructor of the vector: in the calls up to the filling call, in the
    loop, and in what follows the loop. *)
Lemma flat_map_alloc_failed {B : Type} (f : Event -> list B)
      (messages : list string) :
  f (EvGetInstanceProcAddr VK_NULL_HANDLE "vkEnumerateInstanceVersion") = [] ->
  f EvEnumerateInstanceVersion = [] ->
  flat_map f (calls (world_alloc_failed d messages))
  = (f (create_event d) ++ f (count_event d) ++ f (alloc_event d))%list.
Proof.
  intros H1 H2. cbn [calls world_alloc_failed].
  rewrite flat_map_app, loader_calls_flat_map by assumption.
  cbn. now rewrite app_nil_r.
Qed.

Lemma flat_map_listed {B : Type} (f : Event -> list B) :
  f (EvGetInstanceProcAddr VK_NULL_HANDLE "vkEnumerateInstanceVersion") = [] ->
  f EvEnumerateInstanceVersion = [] ->
  flat_map f (calls (world_listed d))
  = (f (create_event d) ++ f (count_event d) ++ f (alloc_event d)
     ++ f (fill_event d)
     ++ flat_map f (listing_calls 0 (handles_reached d))
     ++ f (destroy_event d))%list.
Proof.
  intros H1 H2. cbn [calls world_listed].
  rewrite !flat_map_app, loader_calls_flat_map by assumption.
  cbn. now rewrite !app_nil_r, <- !app_assoc.
Qed.

Lemma flat_map_overrun {B : Type} (f : Event -> list B) :
  f (EvGetInstanceProcAddr VK_NULL_HANDLE "vkEnumerateInstanceVersion") = [] ->
  f EvEnumerateInstanceVersion = [] ->
  flat_map f (calls (world_overrun d))
  = (f (create_event d) ++ f (count_event d) ++ f (alloc_event d)
     ++ f (fill_event d)
     ++ flat_map f (listing_calls 0 (handles_reached d))
     ++ f (EvVectorRead (count_reported d) false))%list.
Proof.
  intros H1 H2. cbn [calls world_overrun].
  rewrite !flat_map_app, loader_calls_flat_map by assumption.
  cbn. now rewrite !app_nil_r, <- !app_assoc.
Qed.




End PathLogs2.



(** X4.  The program asks for the properties of the elements of the vector
    below the count the filling call stored, as far as the vector goes,
    each once and in order of their index: that is the handle the driver
    wrote there, or the null handle where it wrote none.  It asks for none
    when the listing is not decided or the vector cannot be constructed.
    Every device line comes from one such call, in the same order. *)
Theorem devices_described_in_order (h : Host) (d : Driver) :
  described (calls (final h d))
  = (if listing_decision d then
       match vector_alloc h (count_reported d) with
       | Some _ => []
       | None =>
           firstn (Z.to_nat (count_stored d))
                  (overwrite (repeat VK_NULL_HANDLE
                                     (Z.to_nat (count_reported d)))
                             (snd (fill_answer d)))
       end
     else [])
  /\ device_listing (final h d)
     = map (fun x => device_line (on_vkGetPhysicalDeviceProperties d x))
           (described (calls (final h d))).
Proof.
  change (described (calls (final h d)) = handles_listed h d
          /\ device_listing (final h d)
             = map (fun x => device_line (on_vkGetPhysicalDeviceProperties d x))
                   (described (calls (final h d)))).
  assert (described (calls (final h d)) = handles_listed h d) as Hd.
  { on_paths h d; rewrite (final_on h d _ _ Hrun); unfold described.
    - rewrite flat_map_create_failed by reflexivity.
      now rewrite handles_listed_undecided
        by (apply listing_decision_false; tauto).
    - rewrite flat_map_no_devices by reflexivity.
      now rewrite handles_listed_undecided
        by (apply listing_decision_false; tauto).
    - rewrite flat_map_alloc_failed by reflexivity.
      now rewrite (handles_listed_alloc_failed h d e Ha).
    - rewrite flat_map_listed by reflexivity.
      fold (described (listing_calls 0 (handles_reached d))).
      rewrite described_listing, handles_listed_reached
        by (try apply listing_decision_true; auto).
      cbn [app]. apply app_nil_r.
    - rewrite flat_map_overrun by reflexivity.
      fold (described (listing_calls 0 (handles_reached d))).
      rewrite described_listing, handles_listed_reached
        by (try apply listing_decision_true; auto).
      cbn [app]. apply app_nil_r. }
  split; [exact Hd|].
  rewrite Hd, device_listing_final. unfold properties_listed.
  now rewrite map_map.
Qed.

(** ** What a run reports *)







(** X6.  When the context exists and the count query fails or counts no
    device, standard error is the single line
    [[vk] No physical devices found (res=<status>, count=<count>)] with the
    status and the count of that query, standard output holds the banner
    only, and the exit code is 1. *)
Theorem no_devices_diagnostic (h : Host) (d : Driver) :
  create_status d = VK_SUCCESS ->
  count_status d <> VK_SUCCESS \/ count_reported d = 0 ->
  stderr (final h d)
  = ["[vk] No physical devices found (res=" ++ sdec (count_status d)
     ++ ", count=" ++ dec (count_reported d) ++ ")" ++ newline]
  /\ stdout (final h d) = [banner_line (loader_version d)]
  /\ exit_code h d = Some 1.
Proof.
  intros Hc Hn.
  pose proof (run_no_devices h d Hc Hn) as Hrun.
  rewrite (exit_code_on h d _ _ Hrun), (final_on h d _ _ Hrun).
  split; [|split; reflexivity].
  cbn [stderr world_no_devices]. unfold no_devices_line.
  assert (i32 (count_status d) = count_status d) as ->
      by (unfold count_status; apply i32_idem).
  assert (u32 (count_reported d) = count_reported d) as ->
      by (unfold count_reported; apply u32_idem).
  reflexivity.
Qed.

Lemma no_devices_diagnostic_witness :
  (create_status Samples.count_fails = VK_SUCCESS
   /\ count_status Samples.count_fails <> VK_SUCCESS)
  /\ stderr (final Samples.roomy Samples.count_fails)
     = ["[vk] No physical devices found (res=-1, count=0)" ++ newline].
Proof.
  assert (count_status Samples.count_fails <> VK_SUCCESS) as Hs
      by (vm_compute; discriminate).
  split; [split; [reflexivity | exact Hs]|].
  exact (proj1 (no_devices_diagnostic Samples.roomy Samples.count_fails
                  eq_refl (or_introl Hs))).
Defined.

(** ** The version query *)

Lemma loader_version_with_version_status (s : VkResult) (d : Driver) :
  loader_version (with_version_status s d) = loader_version d.
Proof.
  unfold loader_version, resolved_fn.
  cbn [on_vkGetInstanceProcAddr with_version_status].
  destruct (on_vkGetInstanceProcAddr d VK_NULL_HANDLE
              "vkEnumerateInstanceVersion"); reflexivity.
Qed.

Lemma loader_calls_with_version_status (s : VkResult) (d : Driver) :
  loader_calls (with_version_status s d) = loader_calls d.
Proof.
  unfold loader_calls, resolved_fn.
  cbn [on_vkGetInstanceProcAddr with_version_status].
  destruct (on_vkGetInstanceProcAddr d VK_NULL_HANDLE
              "vkEnumerateInstanceVersion"); reflexivity.
Qed.

(** X7.  The status that [vkEnumerateInstanceVersion] returns is not looked
    at: a loader that returns another status and stores the same version
    gives the same run, with the same outputs, calls and exit code. *)
Theorem instance_version_status_discarded (h : Host) (d : Driver)
        (s : VkResult) :
  run h (with_version_status s d) = run h d.
Proof.
  pose proof (loader_version_with_version_status s d) as Hv.
  pose proof (loader_calls_with_version_status s d) as Hl.
  on_paths h d; rewrite Hrun.
  - rewrite (run_create_failed h (with_version_status s d) Hc).
    unfold world_create_failed. rewrite Hv, Hl. reflexivity.
  - rewrite (run_no_devices h (with_version_status s d) Hc Hn).
    unfold world_no_devices. rewrite Hv, Hl. reflexivity.
  - rewrite (run_alloc_failed h (with_version_status s d) e Hc Hs Hn Ha).
    unfold world_alloc_failed. rewrite Hv, Hl. reflexivity.
  - rewrite (run_listed h (with_version_status s d) Hc Hs Hn Ha Hf).
    unfold world_listed. rewrite Hv, Hl. reflexivity.
  - rewrite (run_overrun h (with_version_status s d) Hc Hs Hn Ha Hf).
    unfold world_overrun. rewrite Hv, Hl. reflexivity.
Qed.

(** ** The session with the driver *)



(** X10.  On every run the context is created exactly once and destroyed at
    most once, nothing is created after a destruction, and every call is
    one the state of the context allows.  Whenever [main] returns, a
    context that was created has been destroyed exactly once, by the last
    call of the program. *)
Theorem context_destroyed_once_when_main_returns (h : Host) (d : Driver) :
  let log := calls (final h d) in
  occurrences is_create log = 1%nat
  /\ (occurrences is_destroy log <= 1)%nat
  /\ (forall before after instance,
        log = (before ++ EvDestroyInstance instance :: after)%list ->
        never is_create after)
  /\ lifecycle Uninitialized log <> None
  /\ (forall code, outcome h d = Returned code ->
        lifecycle Uninitialized log
        = Some (if create_status d =? VK_SUCCESS then Terminated
                else Uninitialized)
        /\ (create_status d = VK_SUCCESS ->
              occurrences is_destroy log = 1%nat
              /\ exists before,
                   log = (before
                          ++ [EvDestroyInstance (created_instance d)])%list)).
Proof.
  cbv zeta.
  on_paths h d;
    rewrite (outcome_on h d _ _ Hrun), (final_on h d _ _ Hrun);
    (split; [|split; [|split; [|split]]]).
  - cbn [calls world_create_failed]. count_calls. reflexivity.
  - cbn [calls world_create_failed]. count_calls. lia.
  - intros before after instance Heq. exfalso.
    apply (no_destroy_no_split _ (create_failed_log d is_destroy
             eq_refl eq_refl eq_refl) _ _ _ Heq).
  - cbn [calls world_create_failed].
    rewrite lifecycle_app, lifecycle_loader_calls.
    unfold create_event. cbn.
    destruct (Z.eqb_spec (create_status d) VK_SUCCESS); discriminate.
  - intros code _. split; [|intros H; contradiction].
    cbn [calls world_create_failed].
    rewrite lifecycle_app, lifecycle_loader_calls.
    unfold create_event. cbn.
    destruct (Z.eqb_spec (create_status d) VK_SUCCESS); [contradiction|].
    reflexivity.
  - cbn [calls world_no_devices]. count_calls. reflexivity.
  - cbn [calls world_no_devices]. count_calls. lia.
  - cbn [calls world_no_devices]. intros before after instance Heq.
    change [create_event d; count_event d; destroy_event d]
      with ([create_event d; count_event d] ++ [destroy_event d])%list in Heq.
    rewrite app_assoc in Heq.
    apply destroy_is_last in Heq as ->; [intros x []|].
    apply never_occurrences. count_calls. reflexivity.
  - cbn [calls world_no_devices].
    rewrite lifecycle_app, lifecycle_loader_calls.
    unfold create_event, count_event, destroy_event. cbn.
    rewrite Hc. discriminate.
  - intros code _. cbn [calls world_no_devices]. split.
    + rewrite lifecycle_app, lifecycle_loader_calls.
      unfold create_event, count_event, destroy_event. cbn.
      rewrite Hc. reflexivity.
    + intros _. split; [count_calls; reflexivity|].
      exists (loader_calls d ++ [create_event d; count_event d])%list.
      rewrite <- app_assoc. reflexivity.
  - cbn [calls world_alloc_failed]. count_calls. reflexivity.
  - cbn [calls world_alloc_failed]. count_calls. lia.
  - cbn [calls world_alloc_failed]. intros before after instance Heq.
    exfalso. refine (no_destroy_no_split _ _ _ _ _ Heq).
    apply never_occurrences. count_calls. reflexivity.
  - cbn [calls world_alloc_failed].
    rewrite lifecycle_app, lifecycle_loader_calls.
    unfold create_event, count_event, alloc_event. cbn.
    rewrite Hc. discriminate.
  - intros code H. discriminate H.
  - cbn [calls world_listed]. count_calls. reflexivity.
  - cbn [calls world_listed]. count_calls. lia.
  - cbn [calls world_listed]. intros before after instance Heq.
    rewrite !app_assoc in Heq.
    apply destroy_is_last in Heq as ->; [intros x []|].
    apply never_occurrences. count_calls. reflexivity.
  - cbn [calls world_listed].
    rewrite lifecycle_app, lifecycle_loader_calls.
    unfold create_event, count_event, alloc_event, fill_event, destroy_event.
    cbn [app lifecycle lifecycle_step]. rewrite Hc. cbn.
    rewrite lifecycle_app, lifecycle_listing_calls. discriminate.
  - intros code _. cbn [calls world_listed]. split.
    + rewrite lifecycle_app, lifecycle_loader_calls.
      unfold create_event, count_event, alloc_event, fill_event,
        destroy_event.
      cbn [app lifecycle lifecycle_step]. rewrite Hc. cbn.
      rewrite lifecycle_app, lifecycle_listing_calls. reflexivity.
    + intros _. split; [count_calls; reflexivity|].
      eexists. rewrite !app_assoc. reflexivity.
  - cbn [calls world_overrun]. count_calls. reflexivity.
  - cbn [calls world_overrun]. count_calls. lia.
  - cbn [calls world_overrun]. intros before after instance Heq.
    exfalso. refine (no_destroy_no_split _ _ _ _ _ Heq).
    apply never_occurrences. count_calls. reflexivity.
  - cbn [calls world_overrun].
    rewrite lifecycle_app, lifecycle_loader_calls.
    unfold create_event, count_event, alloc_event, fill_event.
    cbn [app lifecycle lifecycle_step]. rewrite Hc. cbn.
    rewrite lifecycle_app, lifecycle_listing_calls. discriminate.
  - intros code H. discriminate H.
Qed.

Lemma context_destroyed_once_when_main_returns_witness :
  outcome Samples.roomy Samples.two_gpus = Returned 0
  /\ occurrences is_destroy (calls (final Samples.roomy Samples.two_gpus))
     = 1%nat.
Proof.
  split; [reflexivity|].
  destruct (context_destroyed_once_when_main_returns
              Samples.roomy Samples.two_gpus) as [_ [_ [_ [_ H]]]].
  exact (proj1 (proj2 (H 0 eq_refl) eq_refl)).
Defined.

(** ** The numbers of a device line *)

Lemma read_hex_leading_zero (s : string) :
  s <> "" -> read_hex (String "0" s) = read_hex s.
Proof.
  intros Hs. unfold read_hex.
  destruct s as [|c s]; [contradiction|].
  cbn [HexadecimalString.NilZero.uint_of_string].
  change (HexadecimalString.NilEmpty.uint_of_string (String "0" (String c s)))
    with (HexadecimalString.uint_of_char "0"
            (HexadecimalString.NilEmpty.uint_of_string (String c s))).
  destruct (HexadecimalString.NilEmpty.uint_of_string (String c s));
    reflexivity.
Qed.

Lemma read_hex_zeros (n : nat) (s : string) :
  s <> "" -> read_hex (zeros n ++ s) = read_hex s.
Proof.
  intros Hs. induction n as [|n IH]; [reflexivity|].
  cbn [zeros String.append]. rewrite read_hex_leading_zero; [exact IH|].
  destruct n; [exact Hs | discriminate].
Qed.

Lemma hex_nonempty (z : Z) : 0 <= z -> hex z <> "".
Proof.
  intros Hz H. pose proof (hex_read z Hz) as R.
  rewrite H in R. discriminate R.
Qed.

(** X9.  The hexadecimal numbers of a device line lose nothing: the driver
    version reads back as the 32-bit [driverVersion], and the device
    identifier, with or without padding zeros, as the 32-bit [deviceID]. *)
Theorem device_numbers_read_back (p : VkPhysicalDeviceProperties) :
  read_hex (hex (u32 (driverVersion p))) = Some (u32 (driverVersion p))
  /\ read_hex (device_id_text (deviceID p)) = Some (u32 (deviceID p)).
Proof.
  pose proof (u32_range (driverVersion p)).
  pose proof (u32_range (deviceID p)).
  split; [apply hex_read; lia|].
  unfold device_id_text, pad0.
  rewrite read_hex_zeros by (apply hex_nonempty; lia).
  apply hex_read. lia.
Qed.
